(** * Talent-Acquisition-Agent: the candidate ranking pipeline

    A shallow embedding of the parts of the repository that the ranking
    specification talks about:

    - [Backend]: [calculateYearsOfExperience], [uploadCv] and
      [rankCandidates] of [backend/src/candidates/candidates.service.ts];
    - [Frontend]: [handleSubmit] of [frontend/src/components/RankingForm.tsx];
    - [FormEdit]: the editing of that form ([addSkillField],
      [removeSkillField], [updateSkill]) and the effects of a submission;
    - [Store]: [uploadCv], [parseCvWithAI], [findOne] and [deleteCandidate]
      of the service on its repository and its upload directory;
    - [Controller]: [uploadCv] of [candidates.controller.ts];
    - [Engine]: the skill, experience and education scores of the AI
      service's scoring engine ([enhanced_cv_service.py]), whose code is
      not part of the sources at hand and is modelled from the
      specification and from the algorithm descriptions of the README.

    JavaScript numbers are modelled by exact rationals plus [NaN];
    strings are the bytes of their UTF-8 encoding; the wall clock is an
    oracle indexed by the number of reads made so far; the date parser
    of the runtime and the ordering query of the repository are
    parameters. *)

From Stdlib Require Import ZArith QArith Qround String Ascii List Lia Bool.
From Stdlib Require Import Permutation Sorted.
Import ListNotations.

(* ================================================================== *)
(** * JavaScript values used by the backend *)
(* ================================================================== *)

Module JS.

(** A JavaScript number: a finite value, idealised as a rational, or
    [NaN].  Month counts are integers far below 2^53 and the only
    fractions formed are [m / 12 * 10] and [k / 10]; the ties of
    [Math.round] (m = 3 mod 6) are quarters, which doubles represent
    exactly, so the idealisation does not change any rounding. *)
Inductive number : Type :=
| Num (q : Q)
| NaN.

Definition add (a b : number) : number :=
  match a, b with Num x, Num y => Num (x + y) | _, _ => NaN end.

Definition sub (a b : number) : number :=
  match a, b with Num x, Num y => Num (x - y) | _, _ => NaN end.

Definition mul (a b : number) : number :=
  match a, b with Num x, Num y => Num (x * y) | _, _ => NaN end.

(** Division; the backend only divides by the literals 12 and 10. *)
Definition div (a b : number) : number :=
  match a, b with Num x, Num y => Num (x / y) | _, _ => NaN end.

(** [Math.round]: the nearest integer, ties towards +infinity. *)
Definition Math_round (a : number) : number :=
  match a with
  | Num x => Num (inject_Z (Qfloor (x + (1 # 2))))
  | NaN => NaN
  end.

(** [a || b] on numbers: [0] and [NaN] are falsy. *)
Definition or_else (a b : number) : number :=
  match a with
  | Num x => if Qeq_bool x 0 then b else a
  | NaN => b
  end.

(** A [Date] object as seen through [getFullYear] and [getMonth]
    (local time, months counted from 0), or an Invalid Date. *)
Inductive Date : Type :=
| ValidDate (fullYear month : Z)
| InvalidDate.

Definition getFullYear (d : Date) : number :=
  match d with ValidDate y _ => Num (inject_Z y) | InvalidDate => NaN end.

Definition getMonth (d : Date) : number :=
  match d with ValidDate _ m => Num (inject_Z m) | InvalidDate => NaN end.

(** [String.prototype.toLowerCase] on the letters A-Z; no other
    character lower-cases to a letter of the word "present". *)
Definition lower_char (c : ascii) : ascii :=
  let n := nat_of_ascii c in
  if ((65 <=? n) && (n <=? 90))%nat then ascii_of_nat (n + 32) else c.

Fixpoint toLowerCase (s : string) : string :=
  match s with
  | EmptyString => EmptyString
  | String c r => String (lower_char c) (toLowerCase r)
  end.

(** Strings are held as the bytes of their UTF-8 encoding: a string
    from its bytes. *)
Definition bytes (l : list nat) : string :=
  string_of_list_ascii (map ascii_of_nat l).

(** The code points that [String.prototype.trim] strips (WhiteSpace and
    LineTerminator of ECMAScript: U+0009 to U+000D, U+0020, U+00A0,
    U+1680, U+2000 to U+200A, U+2028, U+2029, U+202F, U+205F, U+3000,
    U+FEFF), each as its UTF-8 bytes. *)
Definition whiteSpace : list string :=
  map bytes
    [ [9]; [10]; [11]; [12]; [13]; [32];
      [194; 160];
      [225; 154; 128];
      [226; 128; 128]; [226; 128; 129]; [226; 128; 130]; [226; 128; 131];
      [226; 128; 132]; [226; 128; 133]; [226; 128; 134]; [226; 128; 135];
      [226; 128; 136]; [226; 128; 137]; [226; 128; 138];
      [226; 128; 168]; [226; 128; 169]; [226; 128; 175];
      [226; 129; 159];
      [227; 128; 128];
      [239; 187; 191] ]%nat.

(** [s] without its first [n] bytes. *)
Fixpoint skip (n : nat) (s : string) : string :=
  match n, s with
  | S n', String _ r => skip n' r
  | _, _ => s
  end.

(** [s] without the code point of the table that it starts with, if
    it starts with one. *)
Fixpoint stripFirst (table : list string) (s : string) : option string :=
  match table with
  | [] => None
  | w :: rest =>
      if String.prefix w s then Some (skip (String.length w) s)
      else stripFirst rest s
  end.

(** Leading white space is stripped code point by code point; every
    step removes a byte at least, so the length of the string is fuel
    enough. *)
Fixpoint trimStartFrom (fuel : nat) (s : string) : string :=
  match fuel with
  | O => s
  | S fuel' =>
      match stripFirst whiteSpace s with
      | Some rest => trimStartFrom fuel' rest
      | None => s
      end
  end.

Definition trimStart (s : string) : string :=
  trimStartFrom (String.length s) s.

(** The string is made of white space only. *)
Definition isBlank (s : string) : bool := (trimStart s =? "")%string.

(** Trailing white space: the string is cut where all that follows is
    white space. *)
Fixpoint trimEnd (s : string) : string :=
  match s with
  | EmptyString => EmptyString
  | String c r => if isBlank s then EmptyString else String c (trimEnd r)
  end.

Definition trim (s : string) : string := trimEnd (trimStart s).

(** A property read from parsed JSON where a string is expected: the
    property may be absent ([undefined]), [null], a string, or another
    JSON value (a number, a boolean, an array, an object), kept with
    the date that [new Date] makes of it. *)
Inductive value : Type :=
| undefined
| null
| str (s : string)
| other (asDate : Date).

(** The [Date] constructor of the runtime: how it reads a date string
    ([new Date(s)]), and the full year and month of the epoch in local
    time ([new Date(null)], 1 January 1970 UTC: (1970, 0), or (1969, 11)
    west of Greenwich). *)
Record DateConstructor : Type := {
  parse : string -> Date;
  epoch : Z * Z
}.

End JS.

(** [new Date(s)] is written as the constructor applied to [s]. *)
Coercion JS.parse : JS.DateConstructor >-> Funclass.

(* ================================================================== *)
(** * The backend service *)
(* ================================================================== *)

Module Backend.

(** The wall clock: the n-th read of the clock made by the process
    sees [clk n], the current (full year, month) in local time. *)
Definition Clock : Type := nat -> Z * Z.

Inductive exn : Type :=
| TypeError
| BadRequestException (message : string).

Inductive outcome (A : Type) : Type :=
| Return (a : A)
| Throw (e : exn).
Arguments Return {A} a.
Arguments Throw {A} e.

(** Computations that may read the clock and may throw; the state is
    the number of clock reads made so far. *)
Definition M (A : Type) : Type := Clock -> nat -> outcome A * nat.

Definition ret {A} (a : A) : M A := fun _ n => (Return a, n).

Definition throw {A} (e : exn) : M A := fun _ n => (Throw e, n).

Definition bind {A B} (c : M A) (k : A -> M B) : M B :=
  fun clk n =>
    match c clk n with
    | (Return a, n') => k a clk n'
    | (Throw e, n') => (Throw e, n')
    end.

(** [new Date()] with no argument. *)
Definition new_Date_now : M JS.Date :=
  fun clk n => (Return (JS.ValidDate (fst (clk n)) (snd (clk n))), S n).

(** [Date.now()], of which only the read itself matters here. *)
Definition Date_now : M unit := fun _ n => (Return tt, S n).

Declare Scope backend_scope.
Delimit Scope backend_scope with backend.
Notation "x <- c ;; k" := (bind c (fun x => k))
  (at level 61, c at next level, right associativity) : backend_scope.
Local Open Scope backend_scope.

(** The [Experience] interface of candidate.entity.ts.  The records
    come from the CV parser as untyped JSON, so a date that the
    interface declares a string may also be absent or [null]. *)
Record Experience : Type := {
  title : string;
  company : string;
  startDate : JS.value;
  endDate : JS.value;
  description : string
}.

Record Education : Type := {
  degree : string;
  institution : string
}.

(** The [ScoringDetails] interface of candidate.entity.ts. *)
Record ScoringDetails : Type := {
  skillsScore : JS.number;
  experienceScore : JS.number;
  educationScore : JS.number;
  overallScore : JS.number;
  reasoning : string
}.

(** The columns of the [Candidate] entity that upload and ranking
    write and send.  Left out are the stored file path (see
    [Store.Row]), the raw parser output, and the two timestamps that the
    database keeps: [createdAt], set on insert, and [updatedAt], set
    again by every update.  A record is therefore a stored row up to
    its timestamps, and nothing below says that a row is unchanged as
    a whole.  Nullable columns are options. *)
Record Candidate : Type := {
  id : string;
  email : string;
  fullName : string;
  phone : option string;
  skills : option (list string);
  experience : option (list Experience);
  education : option (list Education);
  score : option JS.number;
  scoringDetails : option ScoringDetails;
  yearsOfExperience : option JS.number;
  status : string
}.

Record UploadCvDto : Type := {
  dto_email : string;
  dto_fullName : string;
  dto_phone : option string
}.

(** What [parseCvWithAI] hands back. *)
Record ParsedCv : Type := {
  cv_skills : option (list string);
  cv_experience : option (list Experience);
  cv_education : option (list Education);
  cv_phone : option string
}.

Record RankCandidatesDto : Type := {
  jobTitle : string;
  jobDescription : string;
  requiredSkills : list string;
  preferredSkills : option (list string);
  minYearsExperience : option JS.number;
  requiredEducation : option string
}.

(** The body of the POST to the AI service's [/rank-candidates]. *)
Record JobRequirements : Type := {
  jr_title : string;
  jr_description : string;
  required_skills : list string;
  preferred_skills : list string;
  min_years_experience : JS.number;
  required_education : string
}.

Record CandidatePayload : Type := {
  p_id : string;
  p_email : string;
  full_name : string;
  p_skills : list string;
  p_experience : list Experience;
  p_education : list Education;
  years_of_experience : JS.number
}.

Record RankRequest : Type := {
  job_requirements : JobRequirements;
  candidates : list CandidatePayload
}.

Record RankedCandidate : Type := {
  candidate_id : string;
  rc_score : JS.number;
  scoring_details : ScoringDetails
}.

(** [v || d] for a value that may be null or undefined; arrays are
    always truthy. *)
Definition orDefault {A} (v : option A) (d : A) : A :=
  match v with Some a => a | None => d end.

(** [v || d] for numbers that may be null. *)
Definition numOr (v : option JS.number) (d : JS.number) : JS.number :=
  match v with Some a => JS.or_else a d | None => d end.

(** [a || b] for strings that may be undefined; [''] is falsy. *)
Definition strOr (a b : option string) : option string :=
  match a with
  | Some s => if (s =? "")%string then b else a
  | None => b
  end.

Section Service.

(** [new Date(s)] for a string [s]: the parsing of date strings is
    the JavaScript runtime's and is taken as given. *)
Variable Date_parse : JS.DateConstructor.

(** [new Date(v)]: an Invalid Date for [undefined], the epoch for
    [null]. *)
Definition new_Date (v : JS.value) : JS.Date :=
  match v with
  | JS.str s => Date_parse s
  | JS.undefined => JS.InvalidDate
  | JS.null =>
      JS.ValidDate (fst (JS.epoch Date_parse)) (snd (JS.epoch Date_parse))
  | JS.other d => d
  end.

(** The body of the [for] loop, up to the value of [months]. *)
Definition monthsOf (exp : Experience) : M JS.number :=
  let start := new_Date (startDate exp) in
  end_ <- match endDate exp with
          | JS.str s =>
              if (JS.toLowerCase s =? "present")%string
              then new_Date_now
              else ret (Date_parse s)
          | _ => throw TypeError
          end ;;
  ret (JS.add
         (JS.mul (JS.sub (JS.getFullYear end_) (JS.getFullYear start))
                 (JS.Num 12))
         (JS.sub (JS.getMonth end_) (JS.getMonth start))).

(** [for (const exp of experience) { ...; totalMonths += months }] *)
Fixpoint sumMonths (experience : list Experience) (totalMonths : JS.number)
  : M JS.number :=
  match experience with
  | [] => ret totalMonths
  | exp :: rest =>
      months <- monthsOf exp ;;
      sumMonths rest (JS.add totalMonths months)
  end.

Definition calculateYearsOfExperience (experience : option (list Experience))
  : M JS.number :=
  match experience with
  | None => ret (JS.Num 0)
  | Some [] => ret (JS.Num 0)
  | Some exps =>
      totalMonths <- sumMonths exps (JS.Num 0) ;;
      ret (JS.div
             (JS.Math_round
                (JS.mul (JS.div totalMonths (JS.Num 12)) (JS.Num 10)))
             (JS.Num 10))
  end.

(** [uploadCv], given what the repository lookup ([existingCandidate]),
    the CV parser ([parsedData]) and the insert ([newId]) return.  The
    clock is read once for the file name and then by
    [calculateYearsOfExperience]. *)
Definition uploadCv (uploadCvDto : UploadCvDto)
    (existingCandidate : option Candidate) (parsedData : ParsedCv)
    (newId : string) : M Candidate :=
  match existingCandidate with
  | Some _ =>
      throw (BadRequestException "Candidate with this email already exists")
  | None =>
      _ <- Date_now ;;
      years <- calculateYearsOfExperience (cv_experience parsedData) ;;
      ret {| id := newId;
             email := dto_email uploadCvDto;
             fullName := dto_fullName uploadCvDto;
             phone := strOr (dto_phone uploadCvDto) (cv_phone parsedData);
             skills := Some (orDefault (cv_skills parsedData) []);
             experience := Some (orDefault (cv_experience parsedData) []);
             education := Some (orDefault (cv_education parsedData) []);
             score := Some (JS.Num 0) (* the column default *);
             scoringDetails := None;
             yearsOfExperience := Some years;
             status := "pending" |}
  end.

End Service.

(** The candidate objects sent to the AI service. *)
Definition candidatePayload (c : Candidate) : CandidatePayload :=
  {| p_id := id c;
     p_email := email c;
     full_name := fullName c;
     p_skills := orDefault (skills c) [];
     p_experience := orDefault (experience c) [];
     p_education := orDefault (education c) [];
     years_of_experience := numOr (yearsOfExperience c) (JS.Num 0) |}.

Definition rankRequest (rankDto : RankCandidatesDto) (cands : list Candidate)
  : RankRequest :=
  {| job_requirements :=
       {| jr_title := jobTitle rankDto;
          jr_description := jobDescription rankDto;
          required_skills := requiredSkills rankDto;
          preferred_skills := orDefault (preferredSkills rankDto) [];
          min_years_experience := numOr (minYearsExperience rankDto) (JS.Num 0);
          required_education :=
            match requiredEducation rankDto with
            | Some s => s
            | None => ""%string
            end |};
     candidates := map candidatePayload cands |}.

(** [candidatesRepository.update({ id }, { score, scoringDetails })],
    on the columns of [Candidate]: the rows with that id get the score
    and the details (the database also renews their [updatedAt], which
    is not among these columns).  The table is a set of rows; it is
    kept as the list that [find()] returned, whose order is the
    database's and carries no meaning. *)
Definition update (rows : list Candidate) (r : RankedCandidate) : list Candidate :=
  map (fun c =>
         if (id c =? candidate_id r)%string
         then {| id := id c; email := email c; fullName := fullName c;
                 phone := phone c; skills := skills c;
                 experience := experience c; education := education c;
                 score := Some (rc_score r);
                 scoringDetails := Some (scoring_details r);
                 yearsOfExperience := yearsOfExperience c;
                 status := status c |}
         else c)
      rows.

Section Ranking.

(** The AI service's answer to a ranking request ([None]: the request
    failed), and the repository's [find({ order: { score: 'DESC' } })]
    as a function of the stored rows.  What the query is known to do
    is its contract, [ordersByScoreDesc] below. *)
Variable aiService : RankRequest -> option (list RankedCandidate).
Variable findOrderByScoreDesc : list Candidate -> list Candidate.

(** [rankCandidates], given the rows [candidatesRepository.find()] returns. *)
Definition rankCandidates (rankDto : RankCandidatesDto) (rows : list Candidate)
  : M (list Candidate) :=
  match rows with
  | [] => ret []
  | _ :: _ =>
      match aiService (rankRequest rankDto rows) with
      | Some rankedCandidates =>
          ret (findOrderByScoreDesc (fold_left update rankedCandidates rows))
      | None =>
          throw (BadRequestException
                   "Failed to rank candidates. AI service may be unavailable.")
      end
  end.

End Ranking.

End Backend.

(* ================================================================== *)
(** * The ranking form of the frontend *)
(* ================================================================== *)

Module Frontend.

Record FormData : Type := {
  jobTitle : string;
  jobDescription : string;
  requiredSkills : list string;
  preferredSkills : list string;
  minYearsExperience : Z;
  requiredEducation : string
}.

(** What a submission does: it shows an alert and stops, or it posts
    the ranking request to [/api/candidates/rank]. *)
Inductive Submission : Type :=
| Alert (message : string)
| Post (body : FormData).

(** [s => s.trim() !== ''] *)
Definition nonBlank (s : string) : bool := negb (JS.trim s =? "")%string.

Definition handleSubmit (formData : FormData) : Submission :=
  if ((jobTitle formData =? "") || (jobDescription formData =? ""))%string
  then Alert "Please fill in job title and description"
  else
    let requiredSkills' := filter nonBlank (requiredSkills formData) in
    if (length requiredSkills' =? 0)%nat
    then Alert "Please add at least one required skill"
    else Post {| jobTitle := jobTitle formData;
                 jobDescription := jobDescription formData;
                 requiredSkills := requiredSkills';
                 preferredSkills := filter nonBlank (preferredSkills formData);
                 minYearsExperience := minYearsExperience formData;
                 requiredEducation := requiredEducation formData |}.

End Frontend.

(* ================================================================== *)
(** * The scoring engine of the AI service *)
(* ================================================================== *)

Module Engine.






(** Modelled from the spec: the experience-years score of §4.3. *)
Definition score_yearsExperience (candidateYears requiredYears : Q) : Q :=
  if Qeq_bool requiredYears 0 then 100
  else if Qle_bool requiredYears candidateYears then 100
  else candidateYears / requiredYears * 100.

(** Modelled from the spec: the keyword table of §4.4. *)
Definition educationKeywords : list (string * nat) :=
  [ ("phd", 5); ("doctorate", 5);
    ("master", 4); ("mba", 4);
    ("bachelor", 3);
    ("associate", 2);
    ("diploma", 1); ("certificate", 1) ]%nat%string.

(** Modelled from the spec: the substring test of §4.4. *)
Fixpoint contains (needle hay : string) : bool :=
  String.prefix needle hay ||
  match hay with
  | EmptyString => false
  | String _ rest => contains needle rest
  end.

(** Modelled from the spec: §4.4, case-insensitive substring match
    against the table, the highest level matched. *)
Definition educationLevel (text : string) : nat :=
  fold_right
    (fun '(keyword, level) best =>
       if contains keyword (JS.toLowerCase text) then Nat.max level best
       else best)
    0%nat educationKeywords.

(** Modelled from the spec: §4.4, the highest level wins among a
    candidate's entries; no entry gives level 0. *)
Definition candidateLevel (education : list Backend.Education) : nat :=
  fold_right (fun e best => Nat.max (educationLevel (Backend.degree e)) best)
             0%nat education.

(** Modelled from the spec: the education score of §4.4. *)
Definition score_education (requiredEducation : string)
    (education : list Backend.Education) : Q :=
  if (requiredEducation =? "")%string then 100
  else
    let requiredLevel := educationLevel requiredEducation in
    let level := candidateLevel education in
    if (requiredLevel <=? level)%nat then 100
    else if (level =? requiredLevel - 1)%nat then 70
    else 40.

End Engine.

(* ================================================================== *)
(** * The years-of-experience derivation in the specification's words *)
(* ================================================================== *)

Module Spec.

Section Derivation.

Variable Date_parse : JS.DateConstructor.
Variable now : Z * Z.

(** The start of an entry: a date string, or no date at all. *)
Definition resolveStart (startDate : JS.value) : JS.Date :=
  match startDate with
  | JS.str s => Date_parse s
  | _ => JS.InvalidDate
  end.

(** The end of an entry, with "present" (in any letter case) replaced
    by the evaluation timestamp. *)
Definition resolveEnd (endDate : JS.value) : JS.Date :=
  match endDate with
  | JS.str s =>
      if (JS.toLowerCase s =? "present")%string
      then JS.ValidDate (fst now) (snd now)
      else Date_parse s
  | _ => JS.InvalidDate
  end.

Definition monthsBetween (startYear startMonth endYear endMonth : Z) : Z :=
  (endYear - startYear) * 12 + (endMonth - startMonth).

(** The months of one entry; an entry with a malformed or missing date
    counts for zero months (§4.3, §7). *)
Definition entryMonths (exp : Backend.Experience) : Z :=
  match resolveStart (Backend.startDate exp),
        resolveEnd (Backend.endDate exp) with
  | JS.ValidDate sy sm, JS.ValidDate ey em => monthsBetween sy sm ey em
  | _, _ => 0
  end.

(** The sum across all entries; nothing is merged. *)
Definition totalMonths (experience : list Backend.Experience) : Z :=
  fold_right Z.add 0%Z (map entryMonths experience).

Definition roundOneDecimal (q : Q) : Q :=
  inject_Z (Qfloor (q * 10 + (1 # 2))) / 10.

Definition derivedYears (experience : option (list Backend.Experience)) : Q :=
  match experience with
  | None => 0
  | Some exps => roundOneDecimal (inject_Z (totalMonths exps) / 12)
  end.

End Derivation.

End Spec.

(* ================================================================== *)
(** * Predicates on experience entries *)
(* ================================================================== *)

Definition isPresent (endDate : JS.value) : bool :=
  match endDate with
  | JS.str s => (JS.toLowerCase s =? "present")%string
  | _ => false
  end.

Definition isValid (d : JS.Date) : bool :=
  match d with JS.ValidDate _ _ => true | JS.InvalidDate => false end.

(** The entry has no end date: [endDate] is absent, null or not a
    string. *)
Definition missingEnd (exp : Backend.Experience) : bool :=
  match Backend.endDate exp with JS.str _ => false | _ => true end.

(** The end of the entry is "present" or a string that denotes a date. *)
Definition endResolves (Date_parse : JS.DateConstructor)
    (exp : Backend.Experience) : bool :=
  match Backend.endDate exp with
  | JS.str s => isPresent (JS.str s) || isValid (Date_parse s)
  | _ => false
  end.

(** Both dates of the entry are strings that denote dates. *)
Definition wellFormed (Date_parse : JS.DateConstructor) (exp : Backend.Experience)
  : bool :=
  match Backend.startDate exp with
  | JS.str s => isValid (Date_parse s)
  | _ => false
  end
  && endResolves Date_parse exp.

(** [new Date] makes a date of the start of the entry (of a string that
    denotes one, of [null], of a number), and the end resolves. *)
Definition resolves (Date_parse : JS.DateConstructor) (exp : Backend.Experience)
  : bool :=
  isValid (Backend.new_Date Date_parse (Backend.startDate exp))
  && endResolves Date_parse exp.

(** The entry has an end date, and [new Date] makes no date of its
    start or of its end. *)
Definition malformed (Date_parse : JS.DateConstructor) (exp : Backend.Experience)
  : bool :=
  negb (missingEnd exp) && negb (resolves Date_parse exp).

(** The number of entries whose end is "present". *)
Definition presentCount (exps : list Backend.Experience) : nat :=
  length (filter (fun exp => isPresent (Backend.endDate exp)) exps).

(** The months the loop of [calculateYearsOfExperience] adds for an
    entry that resolves, the clock reading [now]. *)
Definition monthsCounted (Date_parse : JS.DateConstructor) (now : Z * Z)
    (exp : Backend.Experience) : Z :=
  match Backend.new_Date Date_parse (Backend.startDate exp),
        Spec.resolveEnd Date_parse now (Backend.endDate exp) with
  | JS.ValidDate sy sm, JS.ValidDate ey em =>
      ((ey - sy) * 12 + (em - sm))%Z
  | _, _ => 0%Z
  end.

(** The months the loop adds over a list of entries that resolve. *)
Definition totalCounted (Date_parse : JS.DateConstructor) (now : Z * Z)
    (exps : list Backend.Experience) : Z :=
  fold_right Z.add 0%Z (map (monthsCounted Date_parse now) exps).

(* ================================================================== *)
(** * The ordering query of the repository *)
(* ================================================================== *)

(** What [find({ order: { score: 'DESC' } })] promises of two rows it
    returns one after the other, [a] before [b], when both scores are
    numbers: the score of [b] is not above that of [a].  (Where the
    database puts rows whose score is NULL or NaN is its own rule.) *)
Definition scoreNotBelow (a b : Backend.Candidate) : Prop :=
  match Backend.score a, Backend.score b with
  | Some (JS.Num x), Some (JS.Num y) => y <= x
  | _, _ => True
  end.

(** The contract of the repository query of [rankCandidates]: the
    table is a set of rows, kept here as a list in no particular order,
    and the query returns all of its rows, each once, in descending
    order of score.  The query names no second key, so the order of two
    rows with the same score is the database's choice. *)
Definition ordersByScoreDesc
    (find : list Backend.Candidate -> list Backend.Candidate) : Prop :=
  forall rows,
    Permutation rows (find rows)
    /\ StronglySorted scoreNotBelow (find rows).

(** A row may come before another in descending order of score, rows
    without a numeric score first (as PostgreSQL has it). *)
Definition mayPrecede (a b : Backend.Candidate) : bool :=
  match Backend.score a, Backend.score b with
  | Some (JS.Num x), Some (JS.Num y) => Qle_bool y x
  | Some (JS.Num _), _ => false
  | _, _ => true
  end.

(** One query that keeps the contract and does not keep ties in table
    order: every row is put behind the rows that may precede it. *)
Fixpoint putBehind (c : Backend.Candidate) (l : list Backend.Candidate)
  : list Backend.Candidate :=
  match l with
  | [] => [c]
  | d :: rest =>
      if mayPrecede d c then d :: putBehind c rest else c :: d :: rest
  end.

Definition tiesLastFirst (rows : list Backend.Candidate)
  : list Backend.Candidate :=
  fold_right putBehind [] rows.

(* ================================================================== *)
(** * Editing the ranking form *)
(* ================================================================== *)

Module FormEdit.

Import Frontend.

Inductive SkillType : Type :=
| required
| preferred.

(** The initial state of [useState] in RankingForm.tsx. *)
Definition initialFormData : FormData :=
  {| jobTitle := "";
     jobDescription := "";
     requiredSkills := [""%string];
     preferredSkills := [""%string];
     minYearsExperience := 0%Z;
     requiredEducation := "" |}.

(** [{ ...formData, requiredSkills: l }] *)
Definition withRequiredSkills (formData : FormData) (l : list string)
  : FormData :=
  {| jobTitle := jobTitle formData;
     jobDescription := jobDescription formData;
     requiredSkills := l;
     preferredSkills := preferredSkills formData;
     minYearsExperience := minYearsExperience formData;
     requiredEducation := requiredEducation formData |}.

(** [{ ...formData, preferredSkills: l }] *)
Definition withPreferredSkills (formData : FormData) (l : list string)
  : FormData :=
  {| jobTitle := jobTitle formData;
     jobDescription := jobDescription formData;
     requiredSkills := requiredSkills formData;
     preferredSkills := l;
     minYearsExperience := minYearsExperience formData;
     requiredEducation := requiredEducation formData |}.

Definition addSkillField (type : SkillType) (formData : FormData) : FormData :=
  match type with
  | required =>
      withRequiredSkills formData (requiredSkills formData ++ [""%string])
  | preferred =>
      withPreferredSkills formData (preferredSkills formData ++ [""%string])
  end.

(** [l.filter((_, i) => i !== index)], the elements of [l] being
    numbered from [i] on. *)
Fixpoint filterOut (index i : nat) (l : list string) : list string :=
  match l with
  | [] => []
  | s :: rest =>
      if negb (i =? index)%nat then s :: filterOut index (S i) rest
      else filterOut index (S i) rest
  end.

Definition removeSkillField (type : SkillType) (index : nat)
    (formData : FormData) : FormData :=
  match type with
  | required =>
      let newSkills := filterOut index 0 (requiredSkills formData) in
      withRequiredSkills formData
        (if (0 <? length newSkills)%nat then newSkills else [""%string])
  | preferred =>
      let newSkills := filterOut index 0 (preferredSkills formData) in
      withPreferredSkills formData newSkills
  end.

(** [newSkills[index] = value] on a copy of [l], for an index below the
    length.  Past the end JavaScript would leave holes in the array,
    which a list of strings cannot hold: the result is [None] there.
    The inputs of the form only pass indexes of rendered rows. *)
Fixpoint assign (l : list string) (index : nat) (value : string)
  : option (list string) :=
  match l, index with
  | [], _ => None
  | _ :: rest, O => Some (value :: rest)
  | s :: rest, S i =>
      match assign rest i value with
      | Some rest' => Some (s :: rest')
      | None => None
      end
  end.

Definition updateSkill (type : SkillType) (index : nat) (value : string)
    (formData : FormData) : option FormData :=
  match type with
  | required =>
      match assign (requiredSkills formData) index value with
      | Some newSkills => Some (withRequiredSkills formData newSkills)
      | None => None
      end
  | preferred =>
      match assign (preferredSkills formData) index value with
      | Some newSkills => Some (withPreferredSkills formData newSkills)
      | None => None
      end
  end.

(** What the user can do to the form: the [onChange] and [onClick]
    handlers of the rendered inputs and buttons.  [ChangeMinYears]
    carries the result of [parseInt] ([None] for NaN). *)
Inductive Event : Type :=
| ChangeJobTitle (value : string)
| ChangeJobDescription (value : string)
| ChangeSkill (type : SkillType) (index : nat) (value : string)
| RemoveSkill (type : SkillType) (index : nat)
| AddSkill (type : SkillType)
| ChangeMinYears (parsed : option Z)
| ChangeRequiredEducation (value : string).

Definition handle (e : Event) (formData : FormData) : option FormData :=
  match e with
  | ChangeJobTitle value =>
      Some {| jobTitle := value;
              jobDescription := jobDescription formData;
              requiredSkills := requiredSkills formData;
              preferredSkills := preferredSkills formData;
              minYearsExperience := minYearsExperience formData;
              requiredEducation := requiredEducation formData |}
  | ChangeJobDescription value =>
      Some {| jobTitle := jobTitle formData;
              jobDescription := value;
              requiredSkills := requiredSkills formData;
              preferredSkills := preferredSkills formData;
              minYearsExperience := minYearsExperience formData;
              requiredEducation := requiredEducation formData |}
  | ChangeSkill type index value => updateSkill type index value formData
  | RemoveSkill type index => Some (removeSkillField type index formData)
  | AddSkill type => Some (addSkillField type formData)
  | ChangeMinYears parsed =>
      Some {| jobTitle := jobTitle formData;
              jobDescription := jobDescription formData;
              requiredSkills := requiredSkills formData;
              preferredSkills := preferredSkills formData;
              minYearsExperience :=
                match parsed with Some z => z | None => 0%Z end;
              requiredEducation := requiredEducation formData |}
  | ChangeRequiredEducation value =>
      Some {| jobTitle := jobTitle formData;
              jobDescription := jobDescription formData;
              requiredSkills := requiredSkills formData;
              preferredSkills := preferredSkills formData;
              minYearsExperience := minYearsExperience formData;
              requiredEducation := value |}
  end.

(** The states the form can be in. *)
Inductive reachable : FormData -> Prop :=
| reach_initial : reachable initialFormData
| reach_handle e formData formData' :
    reachable formData ->
    handle e formData = Some formData' ->
    reachable formData'.

(** The answer of the backend to the POST: the ranked list, or an error
    with the message of its body, if it has one. *)
Inductive Response (A : Type) : Type :=
| Succeeded (data : A)
| Failed (message : option string).
Arguments Succeeded {A} data.
Arguments Failed {A} message.

(** What [handleSubmit] does, in order. *)
Inductive Effect (A : Type) : Type :=
| ShowAlert (message : string)
| SetLoading (loading : bool)
| PostRank (body : FormData)
| RankingComplete (rankedCandidates : A).
Arguments ShowAlert {A} message.
Arguments SetLoading {A} loading.
Arguments PostRank {A} body.
Arguments RankingComplete {A} rankedCandidates.

(** [error.response?.data?.message || 'Failed to rank candidates'] *)
Definition errorMessage (message : option string) : string :=
  match message with
  | Some m => if (m =? "")%string then "Failed to rank candidates" else m
  | None => "Failed to rank candidates"
  end.

(** The whole of [handleSubmit], given how the backend answers. *)
Definition submit {A} (api : FormData -> Response A) (formData : FormData)
  : list (Effect A) :=
  match handleSubmit formData with
  | Alert message => [ShowAlert message]
  | Post body =>
      SetLoading true :: PostRank body ::
      match api body with
      | Succeeded data => [RankingComplete data; SetLoading false]
      | Failed message => [ShowAlert (errorMessage message); SetLoading false]
      end
  end.

(** The value of [loading] after a sequence of effects. *)
Definition loadingAfter {A} (effects : list (Effect A)) (loading : bool) : bool :=
  fold_left
    (fun l e => match e with SetLoading b => b | _ => l end)
    effects loading.

End FormEdit.

(* ================================================================== *)
(** * The service on its repository and its upload directory *)
(* ================================================================== *)

Module Store.

Import Backend.

(** A stored candidate: the entity with its [cvFilePath] column. *)
Record Row : Type := {
  entity : Candidate;
  cvFilePath : option string
}.

(** The candidates table and the files on disk.  New rows are put
    last; the order of the rows is the model's, not the database's. *)
Record World : Type := {
  rows : list Row;
  files : list string
}.

(** [candidatesRepository.findOne({ where: { email } })] *)
Definition findByEmail (e : string) (rs : list Row) : option Row :=
  find (fun r => (email (entity r) =? e)%string) rs.

(** [candidatesRepository.findOne({ where: { id } })] *)
Definition findById (i : string) (rs : list Row) : option Row :=
  find (fun r => (id (entity r) =? i)%string) rs.

Inductive result (A : Type) : Type :=
| Ok (a : A)
| NotFoundException (message : string).
Arguments Ok {A} a.
Arguments NotFoundException {A} message.

Definition notFound (i : string) : string :=
  ("Candidate with ID " ++ i ++ " not found")%string.

Definition findOne (i : string) (w : World) : result Row :=
  match findById i (rows w) with
  | Some r => Ok r
  | None => NotFoundException (notFound i)
  end.

(** [parseCvWithAI]: the answer of the AI service, or the basic
    structure when anything fails ([aiParse] gives [None]). *)
Definition parseCvWithAI (aiParse : string -> option ParsedCv)
    (filePath : string) : ParsedCv :=
  match aiParse filePath with
  | Some data => data
  | None =>
      {| cv_skills := Some [];
         cv_experience := Some [];
         cv_education := Some [];
         cv_phone := None |}
  end.

Section Service.

Variable Date_parse : JS.DateConstructor.
Variable aiParse : string -> option ParsedCv.

(** [uploadCv] on the repository and the disk.  [filePath] is the path
    made from the upload directory, [Date.now()] and the file's original
    name; [newId] is the id the insert generates.  The clock read for
    the file name is the one [Backend.uploadCv] makes first.  The write
    to the disk and the insert are taken to go through: what the file
    system or the database may refuse is not part of this model. *)
Definition uploadCv (uploadCvDto : UploadCvDto) (filePath newId : string)
    (w : World) (clk : Clock) (n : nat)
  : outcome Candidate * World * nat :=
  match findByEmail (dto_email uploadCvDto) (rows w) with
  | Some _ =>
      (Throw (BadRequestException "Candidate with this email already exists"),
       w, n)
  | None =>
      let written := {| rows := rows w; files := filePath :: files w |} in
      let parsedData := parseCvWithAI aiParse filePath in
      match Backend.uploadCv Date_parse uploadCvDto None parsedData newId clk n
      with
      | (Return candidate, n') =>
          (Return candidate,
           {| rows := rows written
                      ++ [{| entity := candidate;
                             cvFilePath := Some filePath |}];
              files := files written |},
           n')
      | (Throw e, n') => (Throw e, written, n')
      end
  end.

End Service.

Section Delete.

(** [fs.unlinkSync] succeeds or throws, and the cleanup call to the AI
    service succeeds or fails; both failures are caught. *)
Variable unlinkSync : string -> bool.
Variable aiCleanup : string -> bool.

(** [fs.existsSync] *)
Definition existsSync (p : string) (w : World) : bool :=
  existsb (String.eqb p) (files w).

(** The first part of [deleteCandidate]: the CV file is removed when
    the row has a path, the file exists and the removal succeeds. *)
Definition removeCvFile (r : Row) (w : World) : World :=
  match cvFilePath r with
  | Some p =>
      if negb (p =? "")%string && existsSync p w
      then if unlinkSync p
           then {| rows := rows w;
                   files := filter (fun q => negb (q =? p)%string) (files w) |}
           else w
      else w
  | None => w
  end.

Definition deleteCandidate (i : string) (w : World) : result unit * World :=
  match findOne i w with
  | NotFoundException message => (NotFoundException message, w)
  | Ok candidate =>
      let w1 := removeCvFile candidate w in
      let _ := aiCleanup i in
      let remaining :=
        filter (fun r => negb (id (entity r) =? i)%string) (rows w1) in
      let affected := (length (rows w1) - length remaining)%nat in
      let w2 := {| rows := remaining; files := files w1 |} in
      if (affected =? 0)%nat then (NotFoundException (notFound i), w2)
      else (Ok tt, w2)
  end.

End Delete.

End Store.

(* ================================================================== *)
(** * The controller *)
(* ================================================================== *)

Module Controller.

Import Backend.

(** The fields of the uploaded [Express.Multer.File] that are used. *)
Record File : Type := {
  originalname : string;
  mimetype : string
}.

Definition allowedMimeTypes : list string :=
  [ "application/pdf";
    "application/vnd.openxmlformats-officedocument.wordprocessingml.document"
  ]%string.

Section Upload.

Variable Date_parse : JS.DateConstructor.
Variable aiParse : string -> option ParsedCv.

(** [uploadCv] of the controller; [filePath] and [newId] as for
    [Store.uploadCv]. *)
Definition uploadCv (uploadCvDto : UploadCvDto) (file : option File)
    (filePath newId : string) (w : Store.World) (clk : Clock) (n : nat)
  : outcome Candidate * Store.World * nat :=
  match file with
  | None => (Throw (BadRequestException "File is required"), w, n)
  | Some f =>
      if negb (existsb (String.eqb (mimetype f)) allowedMimeTypes)
      then (Throw (BadRequestException "Only PDF and DOCX files are allowed"),
            w, n)
      else Store.uploadCv Date_parse aiParse uploadCvDto filePath newId w clk n
  end.

End Upload.

End Controller.

(* ================================================================== *)
(** * Numbers up to their value *)
(* ================================================================== *)

(** Two JavaScript numbers with the same value. *)
Definition sameNumber (a b : JS.number) : Prop :=
  match a, b with
  | JS.Num p, JS.Num q => p == q
  | JS.NaN, JS.NaN => True
  | _, _ => False
  end.

(** Two outcomes of the derivation that a caller cannot tell apart. *)
Definition sameOutcome (a b : Backend.outcome JS.number) : Prop :=
  match a, b with
  | Backend.Return x, Backend.Return y => sameNumber x y
  | Backend.Throw e1, Backend.Throw e2 => e1 = e2
  | _, _ => False
  end.

(** A (year, month) pair as a number of months. *)
Definition monthIndex (ym : Z * Z) : Z := (fst ym * 12 + snd ym)%Z.

(** The code points of a string, one after the other. *)
Fixpoint concat (codePoints : list string) : string :=
  match codePoints with
  | [] => EmptyString
  | w :: rest => (w ++ concat rest)%string
  end.

(** The string is a sequence of white-space code points (the empty
    sequence included). *)
Definition whiteSpaceOnly (s : string) : Prop :=
  exists codePoints,
    Forall (fun w => In w JS.whiteSpace) codePoints
    /\ s = concat codePoints.

(** The string is not blank: stripping white space from its front
    leaves something. *)
Definition hasInk (s : string) : bool := negb (JS.isBlank s).

(** The list of skills of the given kind. *)
Definition skillsOf (type : FormEdit.SkillType) (formData : Frontend.FormData)
  : list string :=
  match type with
  | FormEdit.required => Frontend.requiredSkills formData
  | FormEdit.preferred => Frontend.preferredSkills formData
  end.

(** The other kind of skills. *)
Definition otherType (type : FormEdit.SkillType) : FormEdit.SkillType :=
  match type with
  | FormEdit.required => FormEdit.preferred
  | FormEdit.preferred => FormEdit.required
  end.

(** The body that the form posts, as the backend receives it: the JSON
    fields of the request are the fields of [RankCandidatesDto]. *)
Definition dtoOfBody (body : Frontend.FormData) : Backend.RankCandidatesDto :=
  {| Backend.jobTitle := Frontend.jobTitle body;
     Backend.jobDescription := Frontend.jobDescription body;
     Backend.requiredSkills := Frontend.requiredSkills body;
     Backend.preferredSkills := Some (Frontend.preferredSkills body);
     Backend.minYearsExperience :=
       Some (JS.Num (inject_Z (Frontend.minYearsExperience body)));
     Backend.requiredEducation := Some (Frontend.requiredEducation body) |}.

(** A stored candidate without what ranking writes: its score and its
    scoring details. *)
Definition withoutScore (c : Backend.Candidate) : Backend.Candidate :=
  {| Backend.id := Backend.id c;
     Backend.email := Backend.email c;
     Backend.fullName := Backend.fullName c;
     Backend.phone := Backend.phone c;
     Backend.skills := Backend.skills c;
     Backend.experience := Backend.experience c;
     Backend.education := Backend.education c;
     Backend.score := None;
     Backend.scoringDetails := None;
     Backend.yearsOfExperience := Backend.yearsOfExperience c;
     Backend.status := Backend.status c |}.

(** The last answer of the AI service that names the candidate. *)
Definition lastRanking (rankedCandidates : list Backend.RankedCandidate)
    (c : Backend.Candidate) : option Backend.RankedCandidate :=
  find (fun r => (Backend.id c =? Backend.candidate_id r)%string)
       (rev rankedCandidates).

(* ================================================================== *)
(** * Fixtures for the examples *)
(* ================================================================== *)

Import Backend.

(** A date parser used for the examples: the runtime's reading of
    "YYYY-MM" strings on a host whose local time is UTC; every other
    string is taken to be an Invalid Date. *)
Definition digit (c : ascii) : option Z :=
  let n := Z.of_nat (nat_of_ascii c) in
  if ((48 <=? n) && (n <=? 57))%Z then Some (n - 48)%Z else None.

Definition isoMonthOf (s : string) : JS.Date :=
  match s with
  | String y1 (String y2 (String y3 (String y4
      (String "-" (String m1 (String m2 EmptyString)))))) =>
      match digit y1, digit y2, digit y3, digit y4, digit m1, digit m2 with
      | Some a, Some b, Some c, Some d, Some e, Some f =>
          let m := (10 * e + f)%Z in
          if ((1 <=? m) && (m <=? 12))%Z
          then JS.ValidDate (1000 * a + 100 * b + 10 * c + d)%Z (m - 1)%Z
          else JS.InvalidDate
      | _, _, _, _, _, _ => JS.InvalidDate
      end
  | _ => JS.InvalidDate
  end.

Definition isoMonth : JS.DateConstructor :=
  {| JS.parse := isoMonthOf; JS.epoch := (1970, 0)%Z |}.

(** An experience entry from [s] to [e], one without an end date, and
    one whose start date is [null]. *)
Definition job (s e : string) : Backend.Experience :=
  {| Backend.title := "Engineer"; Backend.company := "Acme";
     Backend.startDate := JS.str s; Backend.endDate := JS.str e;
     Backend.description := "" |}.

Definition jobNoEnd (s : string) : Backend.Experience :=
  {| Backend.title := "Engineer"; Backend.company := "Acme";
     Backend.startDate := JS.str s; Backend.endDate := JS.undefined;
     Backend.description := "" |}.

Definition jobNullStart (e : string) : Backend.Experience :=
  {| Backend.title := "Engineer"; Backend.company := "Acme";
     Backend.startDate := JS.null; Backend.endDate := JS.str e;
     Backend.description := "" |}.

(** A clock that stays in January 2024. *)
Definition january2024 : Backend.Clock := fun _ => (2024%Z, 0%Z).

(** A clock that moves from January to July 2024 after two reads. *)
Definition advancing : Backend.Clock :=
  fun i => if (i <? 2)%nat then (2024%Z, 0%Z) else (2024%Z, 6%Z).

(** A parsed CV, an upload form for it, and a ranking request. *)
Definition sampleCv : ParsedCv :=
  {| cv_skills := Some ["Swift"; "iOS"]%string;
     cv_experience := Some [job "2020-01" "present"];
     cv_education := None;
     cv_phone := None |}.

Definition dtoOf (name : string) : UploadCvDto :=
  {| dto_email := (name ++ "@example.com")%string;
     dto_fullName := name;
     dto_phone := None |}.

Definition sampleRankDto : RankCandidatesDto :=
  {| jobTitle := "iOS Developer";
     jobDescription := "Swift and UIKit";
     requiredSkills := ["Swift"]%string;
     preferredSkills := None;
     minYearsExperience := Some (JS.Num 5);
     requiredEducation := None |}.

(** An education entry with the given degree text. *)
Definition degreeOf (text : string) : Backend.Education :=
  {| Backend.degree := text; Backend.institution := "University" |}.

(** U+2003 EM SPACE and U+3000 IDEOGRAPHIC SPACE, in UTF-8. *)
Definition emSpace : string := JS.bytes [226; 128; 131]%nat.

Definition ideographicSpace : string := JS.bytes [227; 128; 128]%nat.

(** A filled-in ranking form. *)
Definition sampleForm (title : string) (required : list string)
  : Frontend.FormData :=
  {| Frontend.jobTitle := title;
     Frontend.jobDescription := "Builds the iOS app";
     Frontend.requiredSkills := required;
     Frontend.preferredSkills := [""%string];
     Frontend.minYearsExperience := 3%Z;
     Frontend.requiredEducation := "Bachelor" |}.

(** A stored candidate, and the AI service's answer about one. *)
Definition stored (i : string) (years : JS.number) : Candidate :=
  {| id := i;
     email := (i ++ "@example.com")%string;
     fullName := i;
     phone := None;
     skills := Some ["Swift"]%string;
     experience := Some [job "2020-01" "2021-01"];
     education := None;
     score := Some (JS.Num 0);
     scoringDetails := None;
     yearsOfExperience := Some years;
     status := "pending" |}.

(** A stored candidate with the given score. *)
Definition scored (i : string) (s : Q) : Candidate :=
  {| id := i;
     email := (i ++ "@example.com")%string;
     fullName := i;
     phone := None;
     skills := Some ["Swift"]%string;
     experience := Some [job "2020-01" "2021-01"];
     education := None;
     score := Some (JS.Num s);
     scoringDetails := None;
     yearsOfExperience := Some (JS.Num 1);
     status := "pending" |}.

Definition answer (i : string) (s : Q) : RankedCandidate :=
  {| candidate_id := i;
     rc_score := JS.Num s;
     scoring_details :=
       {| skillsScore := JS.Num s; experienceScore := JS.Num s;
          educationScore := JS.Num s; overallScore := JS.Num s;
          reasoning := "" |} |}.

(** A repository with two candidates and their CV files. *)
Definition sampleWorld : Store.World :=
  {| Store.rows :=
       [ {| Store.entity := stored "a" (JS.Num 1);
            Store.cvFilePath := Some "uploads/1-a.pdf"%string |};
         {| Store.entity := stored "b" JS.NaN;
            Store.cvFilePath := Some "uploads/2-b.pdf"%string |} ];
     Store.files := ["uploads/2-b.pdf"; "uploads/1-a.pdf"]%string |}.

Definition pdf : Controller.File :=
  {| Controller.originalname := "cv.pdf";
     Controller.mimetype := "application/pdf" |}.

(* ================================================================== *)
(** * The derivation of the years of experience *)
(* ================================================================== *)

Section DerivationFacts.

Import Backend.

Variable Date_parse : JS.DateConstructor.

(** Equations between rationals whose right-hand side injects an
    integer expression. *)
Ltac inject_ring :=
  unfold Z.sub;
  repeat (rewrite inject_Z_plus || rewrite inject_Z_mult
          || rewrite inject_Z_opp);
  change (inject_Z 12) with 12;
  ring.

Lemma bind_Return {A B} (c : M A) (k : A -> M B) clk n a n' :
  c clk n = (Return a, n') -> bind c k clk n = k a clk n'.
Proof. intros H. unfold bind. rewrite H. reflexivity. Qed.

Lemma bind_Throw {A B} (c : M A) (k : A -> M B) clk n e n' :
  c clk n = (Throw e, n') -> bind c k clk n = (Throw e, n').
Proof. intros H. unfold bind. rewrite H. reflexivity. Qed.

(** The months of an entry that resolves, when the clock reads [now]. *)
Lemma monthsOf_resolves (clk : Clock) (now : Z * Z) (n : nat) exp :
  (forall i, clk i = now) ->
  resolves Date_parse exp = true ->
  exists q,
    monthsOf Date_parse exp clk n
    = (Return (JS.Num q),
       if isPresent (endDate exp) then S n else n)
    /\ q == inject_Z (monthsCounted Date_parse now exp).
Proof.
  intros Hclk Hwf. unfold resolves, endResolves in Hwf.
  apply andb_true_iff in Hwf. destruct Hwf as [Hs He].
  unfold monthsOf, monthsCounted, Spec.resolveEnd.
  destruct (new_Date Date_parse (startDate exp)) as [sy sm|]; [|discriminate].
  destruct (endDate exp) as [| |s|d]; try discriminate.
  unfold isPresent in *.
  destruct (JS.toLowerCase s =? "present")%string.
  - unfold bind, new_Date_now, ret. rewrite Hclk. cbn.
    eexists. split; [reflexivity|]. inject_ring.
  - cbn in He. destruct (JS.parse Date_parse s) as [ey em|]; [|discriminate].
    unfold bind, ret. cbn.
    eexists. split; [reflexivity|]. inject_ring.
Qed.

(** A well-formed entry resolves, and the loop adds for it the months
    of the specification. *)
Lemma wellFormed_resolves exp :
  wellFormed Date_parse exp = true -> resolves Date_parse exp = true.
Proof.
  unfold wellFormed, resolves. intros H.
  apply andb_true_iff in H. destruct H as [Hs He]. rewrite He.
  destruct (startDate exp) as [| |s|d]; try discriminate.
  cbn [new_Date]. rewrite Hs. reflexivity.
Qed.

Lemma wellFormed_monthsCounted now exp :
  wellFormed Date_parse exp = true ->
  monthsCounted Date_parse now exp = Spec.entryMonths Date_parse now exp.
Proof.
  unfold wellFormed, monthsCounted, Spec.entryMonths, Spec.resolveStart.
  intros H. apply andb_true_iff in H. destruct H as [Hs _].
  destruct (startDate exp) as [| |s|d]; try discriminate.
  reflexivity.
Qed.

Lemma wellFormed_totalCounted now exps :
  forallb (wellFormed Date_parse) exps = true ->
  totalCounted Date_parse now exps = Spec.totalMonths Date_parse now exps.
Proof.
  unfold totalCounted, Spec.totalMonths.
  induction exps as [|exp exps IH]; cbn [forallb map fold_right]; intros H.
  - reflexivity.
  - apply andb_true_iff in H. destruct H as [Hexp Hrest].
    rewrite (wellFormed_monthsCounted now exp Hexp), (IH Hrest). reflexivity.
Qed.

Lemma forallb_wellFormed_resolves exps :
  forallb (wellFormed Date_parse) exps = true ->
  forallb (resolves Date_parse) exps = true.
Proof.
  rewrite !forallb_forall. intros H exp Hin.
  apply wellFormed_resolves, H, Hin.
Qed.

Lemma presentCount_cons exp exps :
  presentCount (exp :: exps)
  = ((if isPresent (endDate exp) then 1 else 0) + presentCount exps)%nat.
Proof.
  unfold presentCount. cbn. destruct (isPresent (endDate exp)); reflexivity.
Qed.

(** The loop adds up the months of the entries, when all resolve. *)
Lemma sumMonths_resolves (clk : Clock) (now : Z * Z) exps :
  (forall i, clk i = now) ->
  forallb (resolves Date_parse) exps = true ->
  forall n acc z, acc == inject_Z z ->
  exists q,
    sumMonths Date_parse exps (JS.Num acc) clk n
    = (Return (JS.Num q), (n + presentCount exps)%nat)
    /\ q == inject_Z (z + totalCounted Date_parse now exps).
Proof.
  intros Hclk. induction exps as [|exp exps IH]; intros Hwf n acc z Hacc.
  - cbn. exists acc. split.
    + unfold ret. f_equal. unfold presentCount. cbn. lia.
    + rewrite Hacc. unfold totalCounted. cbn. rewrite Z.add_0_r. reflexivity.
  - cbn in Hwf. apply andb_true_iff in Hwf. destruct Hwf as [Hexp Hrest].
    destruct (monthsOf_resolves clk now n exp Hclk Hexp) as [m [Hm Hq]].
    cbn [sumMonths]. rewrite (bind_Return _ _ _ _ _ _ Hm). cbn [JS.add].
    destruct (IH Hrest (if isPresent (endDate exp) then S n else n)
                (acc + m) (z + monthsCounted Date_parse now exp)%Z)
      as [q [Hrun Hq']].
    + rewrite inject_Z_plus, Hacc, Hq. reflexivity.
    + exists q. split.
      * rewrite Hrun. f_equal. rewrite presentCount_cons.
        destruct (isPresent (endDate exp)); lia.
      * rewrite Hq'. unfold totalCounted. cbn [map fold_right].
        rewrite Z.add_assoc. reflexivity.
Qed.

(** The loop adds up the months of well-formed entries. *)
Lemma sumMonths_wellFormed (clk : Clock) (now : Z * Z) exps :
  (forall i, clk i = now) ->
  forallb (wellFormed Date_parse) exps = true ->
  forall n acc z, acc == inject_Z z ->
  exists q,
    sumMonths Date_parse exps (JS.Num acc) clk n
    = (Return (JS.Num q), (n + presentCount exps)%nat)
    /\ q == inject_Z (z + Spec.totalMonths Date_parse now exps).
Proof.
  intros Hclk Hwf n acc z Hacc.
  rewrite <- (wellFormed_totalCounted now exps Hwf).
  apply sumMonths_resolves;
    [exact Hclk | apply forallb_wellFormed_resolves, Hwf | exact Hacc].
Qed.

End DerivationFacts.

(** Overlapping entries are not merged: the months of a list are the
    sum of the months of its parts. *)
Lemma totalMonths_app Date_parse now l1 l2 :
  Spec.totalMonths Date_parse now (l1 ++ l2)
  = (Spec.totalMonths Date_parse now l1 + Spec.totalMonths Date_parse now l2)%Z.
Proof.
  unfold Spec.totalMonths. induction l1 as [|e l1 IH]; cbn.
  - reflexivity.
  - rewrite IH. apply Z.add_assoc.
Qed.

(** The last line of [calculateYearsOfExperience] is the rounding to
    one decimal of the months over twelve. *)
Lemma final_rounding q z :
  q == inject_Z z ->
  inject_Z (Qfloor (q / 12 * 10 + (1 # 2))) / 10
  == Spec.roundOneDecimal (inject_Z z / 12).
Proof.
  intros H. unfold Spec.roundOneDecimal.
  rewrite (Qfloor_comp (q / 12 * 10 + (1 # 2)) (inject_Z z / 12 * 10 + (1 # 2))).
  - reflexivity.
  - rewrite H. reflexivity.
Qed.

(** What the derivation returns when every entry resolves. *)
Lemma calculateYears_resolves Date_parse (clk : Clock) (now : Z * Z) n exps :
  (forall i, clk i = now) ->
  forallb (resolves Date_parse) exps = true ->
  exists q,
    fst (calculateYearsOfExperience Date_parse (Some exps) clk n)
    = Return (JS.Num q)
    /\ q == Spec.roundOneDecimal
              (inject_Z (totalCounted Date_parse now exps) / 12).
Proof.
  intros Hclk Hwf. destruct exps as [|exp exps].
  - exists 0. split; reflexivity.
  - destruct (sumMonths_resolves Date_parse clk now (exp :: exps) Hclk Hwf
                n 0 0%Z (Qeq_refl _)) as [q [Hrun Hq]].
    unfold calculateYearsOfExperience.
    rewrite (bind_Return _ _ _ _ _ _ Hrun). cbn.
    eexists. split; [reflexivity|].
    apply final_rounding. rewrite Hq. reflexivity.
Qed.

(** What the derivation returns on well-formed entries. *)
Lemma calculateYears_wellFormed Date_parse (clk : Clock) (now : Z * Z) n experience :
  (forall i, clk i = now) ->
  (forall exps, experience = Some exps ->
                forallb (wellFormed Date_parse) exps = true) ->
  exists q,
    fst (calculateYearsOfExperience Date_parse experience clk n)
    = Return (JS.Num q)
    /\ q == Spec.derivedYears Date_parse now experience.
Proof.
  intros Hclk Hwf. destruct experience as [[|exp exps]|].
  - exists 0. split; reflexivity.
  - specialize (Hwf _ eq_refl).
    destruct (sumMonths_wellFormed Date_parse clk now (exp :: exps) Hclk Hwf
                n 0 0%Z (Qeq_refl _)) as [q [Hrun Hq]].
    unfold calculateYearsOfExperience.
    rewrite (bind_Return _ _ _ _ _ _ Hrun). cbn.
    eexists. split; [reflexivity|].
    apply final_rounding. rewrite Hq. reflexivity.
  - exists 0. split; reflexivity.
Qed.



(* ------------------------------------------------------------------ *)
(** ** Entries whose dates are malformed or missing *)

Section BadDates.

Variable Date_parse : JS.DateConstructor.
Variable clk : Clock.

(** An entry that has an end date never throws. *)
Lemma monthsOf_returns exp n :
  missingEnd exp = false ->
  exists m, monthsOf Date_parse exp clk n
            = (Return m, if isPresent (endDate exp) then S n else n).
Proof.
  unfold missingEnd, monthsOf, isPresent. intros H.
  destruct (endDate exp) as [| |s|d]; try discriminate.
  destruct (JS.toLowerCase s =? "present")%string;
    unfold bind, new_Date_now, ret; cbn; eexists; reflexivity.
Qed.

(** An entry without an end date throws: [toLowerCase] is not a
    function of [undefined], of [null] or of a value that is not a
    string. *)
Lemma monthsOf_missingEnd exp n :
  missingEnd exp = true ->
  monthsOf Date_parse exp clk n = (Throw TypeError, n).
Proof.
  unfold missingEnd, monthsOf. intros H.
  destruct (endDate exp); try discriminate; reflexivity.
Qed.

(** The months of a malformed entry are [NaN]. *)
Lemma monthsOf_malformed exp n :
  malformed Date_parse exp = true ->
  monthsOf Date_parse exp clk n
  = (Return JS.NaN, if isPresent (endDate exp) then S n else n).
Proof.
  unfold malformed, resolves, endResolves, missingEnd, monthsOf, isPresent.
  intros H.
  destruct (endDate exp) as [| |s|d]; try discriminate. cbn in H.
  destruct (new_Date Date_parse (startDate exp)) as [sy sm|].
  - cbn in H. destruct (JS.toLowerCase s =? "present")%string; [discriminate|].
    cbn in H. destruct (JS.parse Date_parse s); [discriminate|]. reflexivity.
  - destruct (JS.toLowerCase s =? "present")%string;
      unfold bind, new_Date_now, ret; cbn.
    + reflexivity.
    + destruct (JS.parse Date_parse s); reflexivity.
Qed.

Lemma add_NaN_r a : JS.add a JS.NaN = JS.NaN.
Proof. destruct a; reflexivity. Qed.

(** Once the running total is [NaN] it stays [NaN]. *)
Lemma sumMonths_NaN exps :
  existsb missingEnd exps = false ->
  forall n, sumMonths Date_parse exps JS.NaN clk n
            = (Return JS.NaN, (n + presentCount exps)%nat).
Proof.
  induction exps as [|exp exps IH]; intros Hm n.
  - cbn. unfold ret, presentCount. cbn. f_equal. lia.
  - cbn in Hm. apply orb_false_iff in Hm. destruct Hm as [He Hr].
    destruct (monthsOf_returns exp n He) as [m Hrun].
    cbn [sumMonths]. rewrite (bind_Return _ _ _ _ _ _ Hrun). cbn [JS.add].
    rewrite (IH Hr). f_equal. rewrite presentCount_cons.
    destruct (isPresent (endDate exp)); lia.
Qed.

Lemma sumMonths_malformed exps :
  existsb missingEnd exps = false ->
  existsb (malformed Date_parse) exps = true ->
  forall acc n, sumMonths Date_parse exps acc clk n
                = (Return JS.NaN, (n + presentCount exps)%nat).
Proof.
  induction exps as [|exp exps IH]; intros Hm Hb acc n.
  - discriminate.
  - cbn in Hm. apply orb_false_iff in Hm. destruct Hm as [He Hr].
    cbn [sumMonths]. rewrite presentCount_cons.
    destruct (malformed Date_parse exp) eqn:Hexp.
    + rewrite (bind_Return _ _ _ _ _ _ (monthsOf_malformed exp n Hexp)).
      rewrite add_NaN_r, (sumMonths_NaN exps Hr). f_equal.
      destruct (isPresent (endDate exp)); lia.
    + cbn in Hb. rewrite Hexp in Hb. cbn in Hb.
      destruct (monthsOf_returns exp n He) as [m Hrun].
      rewrite (bind_Return _ _ _ _ _ _ Hrun), (IH Hr Hb). f_equal.
      destruct (isPresent (endDate exp)); lia.
Qed.

Lemma sumMonths_missingEnd exps :
  existsb missingEnd exps = true ->
  forall acc n, exists n',
    sumMonths Date_parse exps acc clk n = (Throw TypeError, n').
Proof.
  induction exps as [|exp exps IH]; intros Hm acc n.
  - discriminate.
  - cbn [sumMonths]. destruct (missingEnd exp) eqn:He.
    + exists n. apply bind_Throw. apply monthsOf_missingEnd. exact He.
    + cbn in Hm. rewrite He in Hm. cbn in Hm.
      destruct (monthsOf_returns exp n He) as [m Hrun].
      rewrite (bind_Return _ _ _ _ _ _ Hrun). apply IH. exact Hm.
Qed.

End BadDates.

(** C2, as the code has it: a malformed or missing date is not skipped.
    When some entry has no end date (its [endDate] is absent, null or
    not a string) the derivation throws a TypeError.  Otherwise, when
    [new Date] makes no date of the start or of the end of some entry
    (a string that is not a date, or an absent [startDate]), no error
    is raised but the derived value is NaN for the whole list, whatever
    the other entries are.  Otherwise every entry is counted, an entry
    whose [startDate] is null from the epoch (1 January 1970) on: the
    result is the month total over twelve, rounded to one decimal. *)
Theorem C2_bad_dates_are_not_skipped :
  forall (Date_parse : JS.DateConstructor) (clk : Clock) (n : nat)
         (exps : list Experience),
    (existsb missingEnd exps = true ->
     fst (calculateYearsOfExperience Date_parse (Some exps) clk n)
     = Throw TypeError)
    /\ (existsb missingEnd exps = false ->
        existsb (malformed Date_parse) exps = true ->
        fst (calculateYearsOfExperience Date_parse (Some exps) clk n)
        = Return JS.NaN)
    /\ (forall now : Z * Z,
          (forall i, clk i = now) ->
          forallb (resolves Date_parse) exps = true ->
          (exists q,
              fst (calculateYearsOfExperience Date_parse (Some exps) clk n)
              = Return (JS.Num q)
              /\ q == Spec.roundOneDecimal
                        (inject_Z (totalCounted Date_parse now exps) / 12))
          /\ forall exp e ey em,
               In exp exps ->
               startDate exp = JS.null ->
               endDate exp = JS.str e ->
               isPresent (JS.str e) = false ->
               JS.parse Date_parse e = JS.ValidDate ey em ->
               monthsCounted Date_parse now exp
               = ((ey - fst (JS.epoch Date_parse)) * 12
                  + (em - snd (JS.epoch Date_parse)))%Z).
Proof.
  intros Date_parse clk n exps. split; [|split].
  - intros Hm. destruct exps as [|exp exps]; [discriminate|].
    destruct (sumMonths_missingEnd Date_parse clk _ Hm (JS.Num 0) n) as [n' Hrun].
    unfold calculateYearsOfExperience.
    rewrite (bind_Throw _ _ _ _ _ _ Hrun). reflexivity.
  - intros Hm Hb. destruct exps as [|exp exps]; [discriminate|].
    unfold calculateYearsOfExperience.
    rewrite (bind_Return _ _ _ _ _ _
               (sumMonths_malformed Date_parse clk _ Hm Hb (JS.Num 0) n)).
    reflexivity.
  - intros now Hclk Hres. split.
    + apply calculateYears_resolves; assumption.
    + intros exp e ey em _ Hs He Hp Hparse.
      unfold monthsCounted, Spec.resolveEnd, isPresent in *.
      rewrite Hs, He, Hp, Hparse. reflexivity.
Qed.

(** A witness: an entry without an end date, an entry whose start is
    not a date, and an entry whose start is null, which counts the 612
    months from January 1970 to January 2021: 51 years. *)
Lemma C2_bad_dates_are_not_skipped_witness :
  fst (calculateYearsOfExperience isoMonth
         (Some [job "2020-01" "2021-01"; jobNoEnd "2021-02"]) january2024 0%nat)
  = Throw TypeError
  /\ fst (calculateYearsOfExperience isoMonth
            (Some [job "2020-01" "2021-01"; job "soon" "2021-06"])
            january2024 0%nat)
     = Return JS.NaN
  /\ exists q,
       fst (calculateYearsOfExperience isoMonth
              (Some [jobNullStart "2021-01"]) january2024 0%nat)
       = Return (JS.Num q)
       /\ q == 51.
Proof.
  split; [|split].
  - apply (C2_bad_dates_are_not_skipped isoMonth january2024 0%nat
             [job "2020-01" "2021-01"; jobNoEnd "2021-02"]).
    reflexivity.
  - apply (C2_bad_dates_are_not_skipped isoMonth january2024 0%nat
             [job "2020-01" "2021-01"; job "soon" "2021-06"]);
      reflexivity.
  - destruct (C2_bad_dates_are_not_skipped isoMonth january2024 0%nat
                [jobNullStart "2021-01"]) as [_ [_ H]].
    destruct (H (2024, 0)%Z) as [[q [Hrun Hq]] _].
    + intros i. reflexivity.
    + reflexivity.
    + exists q. split; [exact Hrun|]. rewrite Hq. vm_compute. reflexivity.
Defined.

(** C2 fails as stated.  With one good year of work and one entry whose
    start date is not a date, skipping the bad entry would give 1.0
    year, but the derivation returns NaN; with an entry that has no
    end date it does not return at all; and with an entry whose start
    date is null, skipping it would give 1.0 year again, but the
    derivation counts it from 1970 and returns 52. *)
Lemma C2_counterexample :
  (Spec.derivedYears isoMonth (2024, 0)%Z
     (Some [job "2020-01" "2021-01"; job "soon" "2021-06"]) == 1
   /\ ~ exists q,
        fst (calculateYearsOfExperience isoMonth
               (Some [job "2020-01" "2021-01"; job "soon" "2021-06"])
               january2024 0%nat)
        = Return (JS.Num q))
  /\ (~ exists v,
        fst (calculateYearsOfExperience isoMonth
               (Some [job "2020-01" "2021-01"; jobNoEnd "2021-02"])
               january2024 0%nat)
        = Return v)
  /\ (Spec.derivedYears isoMonth (2024, 0)%Z
        (Some [job "2020-01" "2021-01"; jobNullStart "2021-01"]) == 1
      /\ exists q,
           fst (calculateYearsOfExperience isoMonth
                  (Some [job "2020-01" "2021-01"; jobNullStart "2021-01"])
                  january2024 0%nat)
           = Return (JS.Num q)
           /\ q == 52).
Proof.
  split; [split|split; [|split]].
  - vm_compute. reflexivity.
  - intros [q H]. vm_compute in H. discriminate.
  - intros [v H]. vm_compute in H. discriminate.
  - vm_compute. reflexivity.
  - eexists. split; [vm_compute; reflexivity|]. vm_compute. reflexivity.
Qed.

(* ------------------------------------------------------------------ *)
(** ** No clamping at zero *)

(** A negative month total gives a negative number of years. *)
Lemma negative_total_negative_years z :
  (z < 0)%Z -> Spec.roundOneDecimal (inject_Z z / 12) < 0.
Proof.
  intros Hz. unfold Spec.roundOneDecimal.
  assert (Hf : (Qfloor (inject_Z z / 12 * 10 + (1 # 2)) <= -1)%Z).
  { assert (Hle : inject_Z z / 12 * 10 + (1 # 2) <= inject_Z (-1) / 12 * 10 + (1 # 2)).
    { apply Qplus_le_l. apply Qmult_le_compat_r; [|discriminate].
      apply Qmult_le_compat_r; [|discriminate].
      rewrite <- Zle_Qle. lia. }
    apply Qfloor_resp_le in Hle. vm_compute (Qfloor (inject_Z (-1) / 12 * 10 + (1 # 2))) in Hle.
    exact Hle. }
  apply Qlt_shift_div_r; [reflexivity|].
  rewrite Qmult_0_l. change 0 with (inject_Z 0). rewrite <- Zlt_Qlt. lia.
Qed.

(** C10: per-entry contributions are not clamped at zero.  A
    well-formed entry that ends (January 2021) before it starts (March
    2021) contributes -2 months, and the derived years of experience
    are negative (-0.2). *)
Theorem C10_negative_years_not_clamped :
  exists exps : list Experience,
    forallb (wellFormed isoMonth) exps = true
    /\ (exists exp, In exp exps
                    /\ (Spec.entryMonths isoMonth (2024, 0)%Z exp < 0)%Z)
    /\ exists q,
         fst (calculateYearsOfExperience isoMonth (Some exps) january2024 0%nat)
         = Return (JS.Num q)
         /\ q < 0.
Proof.
  exists [job "2021-03" "2021-01"]. split; [reflexivity|]. split.
  - exists (job "2021-03" "2021-01"). split; [left; reflexivity|].
    vm_compute. reflexivity.
  - destruct (calculateYears_wellFormed isoMonth january2024 (2024, 0)%Z 0%nat
                (Some [job "2021-03" "2021-01"]))
      as [q [Hq Heq]].
    + intros i. reflexivity.
    + intros exps H. injection H as <-. reflexivity.
    + exists q. split; [exact Hq|]. rewrite Heq.
      apply negative_total_negative_years. vm_compute. reflexivity.
Qed.

(* ================================================================== *)
(** * Reads of the wall clock *)
(* ================================================================== *)

Section ClockReads.

Variable Date_parse : JS.DateConstructor.
Variable clk : Clock.

(** The loop reads the clock once for each "present" entry. *)
Lemma sumMonths_reads exps :
  existsb missingEnd exps = false ->
  forall acc n, exists v,
    sumMonths Date_parse exps acc clk n
    = (Return v, (n + presentCount exps)%nat).
Proof.
  induction exps as [|exp exps IH]; intros Hm acc n.
  - exists acc. cbn. unfold ret, presentCount. cbn. f_equal. lia.
  - cbn in Hm. apply orb_false_iff in Hm. destruct Hm as [He Hr].
    destruct (monthsOf_returns Date_parse clk exp n He) as [m Hrun].
    cbn [sumMonths]. rewrite (bind_Return _ _ _ _ _ _ Hrun).
    destruct (IH Hr (JS.add acc m) (if isPresent (endDate exp) then S n else n))
      as [v Hv].
    exists v. rewrite Hv. f_equal. rewrite presentCount_cons.
    destruct (isPresent (endDate exp)); lia.
Qed.

Lemma calculateYears_reads exps n :
  existsb missingEnd exps = false ->
  exists v,
    calculateYearsOfExperience Date_parse (Some exps) clk n
    = (Return v, (n + presentCount exps)%nat).
Proof.
  intros Hm. destruct exps as [|exp exps].
  - exists (JS.Num 0). cbn. unfold ret, presentCount. cbn. f_equal. lia.
  - destruct (sumMonths_reads _ Hm (JS.Num 0) n) as [v Hv].
    unfold calculateYearsOfExperience.
    rewrite (bind_Return _ _ _ _ _ _ Hv). eexists. reflexivity.
Qed.

(** An upload stores what the derivation returns at that moment. *)
Lemma uploadCv_stores uploadCvDto parsedData newId n v n' :
  calculateYearsOfExperience Date_parse (cv_experience parsedData) clk (S n)
  = (Return v, n') ->
  exists c,
    uploadCv Date_parse uploadCvDto None parsedData newId clk n = (Return c, n')
    /\ yearsOfExperience c = Some v.
Proof.
  intros H. unfold uploadCv.
  rewrite (bind_Return _ _ _ _ tt (S n) eq_refl).
  rewrite (bind_Return _ _ _ _ _ _ H).
  eexists. split; reflexivity.
Qed.

End ClockReads.


(** C9, as the code has it: a ranking invocation of the backend does not
    read the wall clock at all; it sends, for every candidate, the
    stored yearsOfExperience (or 0), and that value was derived when the
    candidate's CV was uploaded, by a derivation that reads the clock
    once for each experience entry whose end date is "present". *)
Theorem C9_clock_read_at_upload_per_present_entry :
  forall (Date_parse : JS.DateConstructor)
         (aiService : RankRequest -> option (list RankedCandidate))
         (findOrderByScoreDesc : list Candidate -> list Candidate)
         (rankDto : RankCandidatesDto) (rows : list Candidate)
         (uploadCvDto : UploadCvDto) (parsedData : ParsedCv) (newId : string)
         (clk : Clock) (n : nat),
    snd (rankCandidates aiService findOrderByScoreDesc rankDto rows clk n) = n
    /\ map years_of_experience (candidates (rankRequest rankDto rows))
       = map (fun c => numOr (yearsOfExperience c) (JS.Num 0)) rows
    /\ (forall exps,
           cv_experience parsedData = Some exps ->
           existsb missingEnd exps = false ->
           exists c v,
             uploadCv Date_parse uploadCvDto None parsedData newId clk n
             = (Return c, (S n + presentCount exps)%nat)
             /\ yearsOfExperience c = Some v
             /\ fst (calculateYearsOfExperience Date_parse (Some exps) clk (S n))
                = Return v).
Proof.
  intros Date_parse aiService findOrderByScoreDesc rankDto rows
         uploadCvDto parsedData newId clk n.
  split; [|split].
  - unfold rankCandidates. destruct rows as [|c rows]; [reflexivity|].
    destruct (aiService _); reflexivity.
  - unfold rankRequest. cbn. rewrite map_map. reflexivity.
  - intros exps Hexp Hm.
    destruct (calculateYears_reads Date_parse clk exps (S n) Hm) as [v Hv].
    destruct (uploadCv_stores Date_parse clk uploadCvDto parsedData newId n v
                (S n + presentCount exps)%nat) as [c [Hc Hy]].
    + rewrite Hexp. exact Hv.
    + exists c, v. split; [exact Hc|]. split; [exact Hy|].
      rewrite Hv. reflexivity.
Qed.

Lemma C9_clock_read_at_upload_per_present_entry_witness :
  exists c v,
    uploadCv isoMonth (dtoOf "ann") None sampleCv "id-1" advancing 0%nat
    = (Return c, 2%nat)
    /\ yearsOfExperience c = Some v
    /\ fst (calculateYearsOfExperience isoMonth
              (Some [job "2020-01" "present"]) advancing 1%nat)
       = Return v.
Proof.
  destruct (C9_clock_read_at_upload_per_present_entry isoMonth
              (fun _ => None) (fun rows => rows) sampleRankDto []
              (dtoOf "ann") sampleCv "id-1" advancing 0%nat)
    as [_ [_ H]].
  apply (H [job "2020-01" "present"]); reflexivity.
Defined.

(** C9 fails as stated.  Two candidates with the same experience, "from
    2020-01 to present", are uploaded while the clock moves from January
    to July 2024.  The ranking invocation that follows reads the clock
    zero times, not once, and the years it sends (4 and 4.5) are not
    those of any single "now".  Within one derivation, two "present"
    entries make two reads. *)
Lemma C9_counterexample :
  exists a b : Candidate,
    uploadCv isoMonth (dtoOf "ann") None sampleCv "id-1" advancing 0%nat
    = (Return a, 2%nat)
    /\ uploadCv isoMonth (dtoOf "bob") None sampleCv "id-2" advancing 2%nat
       = (Return b, 4%nat)
    /\ snd (rankCandidates (fun _ => Some []) (fun rows => rows)
              sampleRankDto [a; b] advancing 4%nat) = 4%nat
    /\ (~ exists now : Z * Z,
          forall p, In p (candidates (rankRequest sampleRankDto [a; b])) ->
            exists q, years_of_experience p = JS.Num q
                      /\ q == Spec.derivedYears isoMonth now
                              (Some (p_experience p)))
    /\ snd (calculateYearsOfExperience isoMonth
              (Some [job "2020-01" "present"; job "2022-01" "present"])
              advancing 1%nat) = 3%nat.
Proof.
  eexists. eexists.
  split; [vm_compute; reflexivity|].
  split; [vm_compute; reflexivity|].
  split; [reflexivity|].
  split; [|reflexivity].
  intros [now H].
  destruct (H _ (or_introl eq_refl)) as [qa [Ha Hqa]].
  destruct (H _ (or_intror (or_introl eq_refl))) as [qb [Hb Hqb]].
  vm_compute in Ha, Hb. injection Ha as <-. injection Hb as <-.
  assert (Heq : 40 # 10 == 45 # 10).
  { etransitivity; [exact Hqa|]. symmetry. exact Hqb. }
  vm_compute in Heq. discriminate.
Qed.

(* ================================================================== *)
(** * The dimension scores of the engine *)
(* ================================================================== *)

Section YearsScore.

Import Engine.

Variable requiredYears : Q.
Hypothesis requiredYears_nonneg : 0 <= requiredYears.

Lemma years_score_cases candidateYears :
  (requiredYears == 0 /\ score_yearsExperience candidateYears requiredYears = 100)
  \/ (0 < requiredYears /\ requiredYears <= candidateYears
      /\ score_yearsExperience candidateYears requiredYears = 100)
  \/ (0 < requiredYears /\ candidateYears < requiredYears
      /\ score_yearsExperience candidateYears requiredYears
         = candidateYears / requiredYears * 100).
Proof.
  unfold score_yearsExperience.
  destruct (Qeq_bool requiredYears 0) eqn:Hz.
  - left. split; [apply Qeq_bool_eq; exact Hz | reflexivity].
  - right. apply Qeq_bool_neq in Hz.
    assert (Hpos : 0 < requiredYears).
    { apply Qle_lteq in requiredYears_nonneg.
      destruct requiredYears_nonneg as [H|H]; [exact H|].
      exfalso. apply Hz. symmetry. exact H. }
    destruct (Qle_bool requiredYears candidateYears) eqn:Hle.
    + left. split; [exact Hpos|]. split; [|reflexivity].
      apply Qle_bool_iff. exact Hle.
    + right. split; [exact Hpos|]. split; [|reflexivity].
      apply Qnot_le_lt. intros H. apply Qle_bool_iff in H. congruence.
Qed.

Lemma years_score_below candidateYears :
  0 < requiredYears -> candidateYears <= requiredYears ->
  candidateYears / requiredYears * 100 <= 100.
Proof.
  intros Hpos Hle.
  setoid_replace 100 with (1 * 100) at 2 by reflexivity.
  apply Qmult_le_compat_r; [|discriminate].
  apply Qle_shift_div_r; [exact Hpos|]. rewrite Qmult_1_l. exact Hle.
Qed.

Lemma years_score_le_100 candidateYears :
  score_yearsExperience candidateYears requiredYears <= 100.
Proof.
  destruct (years_score_cases candidateYears)
    as [[_ ->] | [[_ [_ ->]] | [Hpos [Hlt ->]]]].
  - apply Qle_refl.
  - apply Qle_refl.
  - apply years_score_below; [exact Hpos | apply Qlt_le_weak; exact Hlt].
Qed.

Lemma years_score_monotone c1 c2 :
  c1 <= c2 ->
  score_yearsExperience c1 requiredYears <= score_yearsExperience c2 requiredYears.
Proof.
  intros Hle.
  destruct (years_score_cases c2) as [[_ ->] | [[_ [_ ->]] | [Hpos [Hlt2 ->]]]];
    try apply years_score_le_100.
  destruct (years_score_cases c1) as [[Hz _] | [[_ [Hge _]] | [_ [_ ->]]]].
  - exfalso. rewrite Hz in Hpos. discriminate.
  - exfalso. apply (Qlt_irrefl c2).
    apply Qlt_le_trans with requiredYears; [exact Hlt2|].
    apply Qle_trans with c1; assumption.
  - apply Qmult_le_compat_r; [|discriminate].
    apply Qmult_le_compat_r; [exact Hle|].
    apply Qinv_le_0_compat. exact requiredYears_nonneg.
Qed.

End YearsScore.

(** C4: for a fixed, non-negative number of required years, the
    experience-years score never decreases when the candidate's years
    grow; it is 100 whenever the candidate has the required years and
    never more than 100; below the requirement it is
    candidateYears / requiredYears * 100; and it is 100 when no years
    are required. *)
Theorem C4_years_score_monotone_capped :
  forall requiredYears : Q,
    0 <= requiredYears ->
    (forall c1 c2, c1 <= c2 ->
        Engine.score_yearsExperience c1 requiredYears
        <= Engine.score_yearsExperience c2 requiredYears)
    /\ (forall c, requiredYears <= c ->
          Engine.score_yearsExperience c requiredYears == 100)
    /\ (forall c, Engine.score_yearsExperience c requiredYears <= 100)
    /\ (forall c, c < requiredYears -> ~ requiredYears == 0 ->
          Engine.score_yearsExperience c requiredYears
          == c / requiredYears * 100)
    /\ (requiredYears == 0 ->
        forall c, Engine.score_yearsExperience c requiredYears == 100).
Proof.
  intros r Hr. split; [|split; [|split; [|split]]].
  - intros c1 c2. apply years_score_monotone. exact Hr.
  - intros c Hge.
    destruct (years_score_cases r Hr c) as [[_ ->] | [[_ [_ ->]] | [_ [Hlt _]]]];
      try reflexivity.
    exfalso. apply (Qlt_irrefl c). apply Qlt_le_trans with r; assumption.
  - intros c. apply years_score_le_100. exact Hr.
  - intros c Hlt Hnz.
    destruct (years_score_cases r Hr c) as [[Hz _] | [[_ [Hge _]] | [_ [_ ->]]]].
    + contradiction.
    + exfalso. apply (Qlt_irrefl c). apply Qlt_le_trans with r; assumption.
    + reflexivity.
  - intros Hz c.
    destruct (years_score_cases r Hr c) as [[_ ->] | [[Hpos _] | [Hpos _]]];
      try reflexivity; exfalso; rewrite Hz in Hpos; discriminate.
Qed.

Lemma C4_years_score_monotone_capped_witness :
  Engine.score_yearsExperience 3 5 <= Engine.score_yearsExperience 4 5
  /\ Engine.score_yearsExperience 7 5 == 100
  /\ Engine.score_yearsExperience 3 5 == 60.
Proof.
  destruct (C4_years_score_monotone_capped 5) as [Hm [Hc [_ [Hb _]]]].
  - discriminate.
  - split; [apply Hm; discriminate|].
    split; [apply Hc; discriminate|].
    rewrite Hb; [reflexivity | reflexivity | discriminate].
Defined.

(* ------------------------------------------------------------------ *)
(** ** Skills *)

Section SkillScores.

Import Engine.







End SkillScores.



(* ------------------------------------------------------------------ *)
(** ** Education *)

Section EducationScores.

Import Engine.

Lemma prefix_iff needle hay :
  String.prefix needle hay = true <-> exists rest, hay = (needle ++ rest)%string.
Proof.
  revert hay. induction needle as [|c needle IH]; intros hay.
  - split; [intros _; exists hay; reflexivity|].
    intros _. destruct hay; reflexivity.
  - destruct hay as [|d hay]; cbn.
    + split; [discriminate | intros [rest H]; discriminate].
    + destruct (Ascii.ascii_dec c d) as [->|Hcd].
      * rewrite IH. split; intros [rest H]; exists rest.
        -- rewrite H. reflexivity.
        -- injection H as H. exact H.
      * split; [discriminate|]. intros [rest H]. injection H as H _.
        congruence.
Qed.

(** [contains] is the substring test. *)
Lemma contains_iff needle hay :
  contains needle hay = true
  <-> exists before rest, hay = (before ++ needle ++ rest)%string.
Proof.
  induction hay as [|d hay IH]; cbn [contains].
  - rewrite orb_false_r, prefix_iff. split.
    + intros [rest H]. exists EmptyString, rest. exact H.
    + intros [[|b before] [rest H]]; [exists rest; exact H | discriminate].
  - rewrite orb_true_iff, prefix_iff, IH. split.
    + intros [[rest H] | [before [rest H]]].
      * exists EmptyString, rest. exact H.
      * exists (String d before), rest. rewrite H. reflexivity.
    + intros [[|b before] [rest H]].
      * left. exists rest. exact H.
      * right. injection H as _ H. exists before, rest. exact H.
Qed.

(** The table, read from the top: the highest level whose keyword occurs. *)
Lemma educationLevel_table text :
  let has keyword := contains keyword (JS.toLowerCase text) in
  educationLevel text
  = (if has "phd" || has "doctorate" then 5
     else if has "master" || has "mba" then 4
     else if has "bachelor" then 3
     else if has "associate" then 2
     else if has "diploma" || has "certificate" then 1
     else 0)%string%nat.
Proof.
  unfold educationLevel, educationKeywords. cbn [fold_right].
  destruct (contains "phd" _), (contains "doctorate" _), (contains "master" _),
    (contains "mba" _), (contains "bachelor" _), (contains "associate" _),
    (contains "diploma" _), (contains "certificate" _); reflexivity.
Qed.

Lemma candidateLevel_upper education e :
  In e education ->
  (educationLevel (Backend.degree e) <= candidateLevel education)%nat.
Proof.
  unfold candidateLevel.
  induction education as [|a education IH]; [contradiction|].
  cbn [fold_right]. intros [<- | H]; [lia|]. specialize (IH H). lia.
Qed.

Lemma candidateLevel_attained education :
  education <> [] ->
  exists e, In e education
            /\ candidateLevel education = educationLevel (Backend.degree e).
Proof.
  induction education as [|a education IH]; [contradiction|]. intros _.
  destruct education as [|b education].
  - exists a. split; [left; reflexivity|]. cbn. lia.
  - destruct IH as [e [Hin He]]; [discriminate|].
    unfold candidateLevel in *. cbn [fold_right] in *.
    destruct (Nat.max_spec (educationLevel (Backend.degree a))
                (Nat.max (educationLevel (Backend.degree b))
                   (fold_right
                      (fun e best => Nat.max (educationLevel (Backend.degree e)) best)
                      0%nat education))) as [[_ Hmax] | [_ Hmax]].
    + exists e. split; [right; exact Hin|]. rewrite Hmax. exact He.
    + exists a. split; [left; reflexivity | exact Hmax].
Qed.

End EducationScores.

(** C5: the education level of a text is read off the keyword table
    (phd/doctorate 5, master/mba 4, bachelor 3, associate 2,
    diploma/certificate 1, otherwise 0) by case-insensitive substring
    match; a candidate's level is the highest among the entries; with no
    required education the score is 100 whatever the candidate has;
    otherwise a candidate at or above the required level scores 100, one
    exactly one level below scores 70, and any lower level scores 40. *)
Theorem C5_education_score :
  forall (requiredEducation : string) (education : list Backend.Education),
    (forall keyword text,
        Engine.contains keyword text = true
        <-> exists before rest, text = (before ++ keyword ++ rest)%string)
    /\ (forall text,
        let has keyword := Engine.contains keyword (JS.toLowerCase text) in
        Engine.educationLevel text
        = (if has "phd" || has "doctorate" then 5
           else if has "master" || has "mba" then 4
           else if has "bachelor" then 3
           else if has "associate" then 2
           else if has "diploma" || has "certificate" then 1
           else 0)%string%nat)
    /\ (forall e, In e education ->
          (Engine.educationLevel (Backend.degree e)
           <= Engine.candidateLevel education)%nat)
    /\ (education <> [] ->
        exists e, In e education
                  /\ Engine.candidateLevel education
                     = Engine.educationLevel (Backend.degree e))
    /\ Engine.candidateLevel [] = 0%nat
    /\ (requiredEducation = ""%string ->
        Engine.score_education requiredEducation education = 100)
    /\ (requiredEducation <> ""%string ->
        let requiredLevel := Engine.educationLevel requiredEducation in
        let level := Engine.candidateLevel education in
        ((requiredLevel <= level)%nat ->
         Engine.score_education requiredEducation education = 100)
        /\ (S level = requiredLevel ->
            Engine.score_education requiredEducation education = 70)
        /\ ((S level < requiredLevel)%nat ->
            Engine.score_education requiredEducation education = 40)).
Proof.
  intros req education.
  split; [exact contains_iff|].
  split; [exact educationLevel_table|].
  split; [intros e; apply candidateLevel_upper|].
  split; [apply candidateLevel_attained|].
  split; [reflexivity|].
  split.
  - intros ->. reflexivity.
  - intros Hne. cbn zeta. unfold Engine.score_education.
    destruct (String.eqb_spec req ""); [contradiction|].
    split; [|split]; intros H.
    + destruct (Nat.leb_spec (Engine.educationLevel req)
                  (Engine.candidateLevel education)); [reflexivity | lia].
    + destruct (Nat.leb_spec (Engine.educationLevel req)
                  (Engine.candidateLevel education)); [lia|].
      destruct (Nat.eqb_spec (Engine.candidateLevel education)
                  (Engine.educationLevel req - 1)); [reflexivity | lia].
    + destruct (Nat.leb_spec (Engine.educationLevel req)
                  (Engine.candidateLevel education)); [lia|].
      destruct (Nat.eqb_spec (Engine.candidateLevel education)
                  (Engine.educationLevel req - 1)); [lia | reflexivity].
Qed.


Lemma C5_education_score_witness :
  Engine.score_education "" [degreeOf "Diploma in Design"] = 100
  /\ Engine.score_education "Master"
       [degreeOf "Bachelor of Science"; degreeOf "MBA"] = 100
  /\ Engine.score_education "Master" [degreeOf "Bachelor of Science"] = 70
  /\ Engine.score_education "PhD" [degreeOf "Certificate in Welding"] = 40.
Proof.
  split; [|split; [|split]].
  - destruct (C5_education_score "" [degreeOf "Diploma in Design"])
      as [_ [_ [_ [_ [_ [H _]]]]]].
    apply H. reflexivity.
  - destruct (C5_education_score "Master"
                [degreeOf "Bachelor of Science"; degreeOf "MBA"])
      as [_ [_ [_ [_ [_ [_ H]]]]]].
    apply H; [discriminate|]. vm_compute. lia.
  - destruct (C5_education_score "Master" [degreeOf "Bachelor of Science"])
      as [_ [_ [_ [_ [_ [_ H]]]]]].
    apply H; [discriminate|]. reflexivity.
  - destruct (C5_education_score "PhD" [degreeOf "Certificate in Welding"])
      as [_ [_ [_ [_ [_ [_ H]]]]]].
    apply H; [discriminate|]. vm_compute. lia.
Defined.

(* ================================================================== *)
(** * Ranking *)
(* ================================================================== *)

Section RankOrder.

Lemma putBehind_perm c l : Permutation (c :: l) (putBehind c l).
Proof.
  induction l as [|d l IH]; cbn [putBehind].
  - reflexivity.
  - destruct (mayPrecede d c); [|reflexivity].
    etransitivity; [apply perm_swap | apply perm_skip, IH].
Qed.

Lemma tiesLastFirst_perm rows : Permutation rows (tiesLastFirst rows).
Proof.
  induction rows as [|c rows IH]; cbn [tiesLastFirst fold_right].
  - constructor.
  - etransitivity; [apply perm_skip, IH | apply putBehind_perm].
Qed.

(** [mayPrecede] is a total preorder. *)
Lemma mayPrecede_total a b : mayPrecede a b = false -> mayPrecede b a = true.
Proof.
  unfold mayPrecede.
  destruct (score a) as [[x|]|], (score b) as [[y|]|];
    try reflexivity; try discriminate.
  intros H. apply Qle_bool_iff.
  destruct (Qlt_le_dec x y) as [Hlt|Hle].
  - apply Qlt_le_weak, Hlt.
  - apply Qle_bool_iff in Hle. congruence.
Qed.

Lemma mayPrecede_trans a b c :
  mayPrecede a b = true -> mayPrecede b c = true -> mayPrecede a c = true.
Proof.
  unfold mayPrecede.
  destruct (score a) as [[x|]|], (score b) as [[y|]|], (score c) as [[z|]|];
    try reflexivity; try discriminate.
  rewrite !Qle_bool_iff. intros H1 H2. apply (Qle_trans _ y); assumption.
Qed.

Lemma mayPrecede_scoreNotBelow a b :
  mayPrecede a b = true -> scoreNotBelow a b.
Proof.
  unfold mayPrecede, scoreNotBelow.
  destruct (score a) as [[x|]|], (score b) as [[y|]|]; try exact (fun _ => I).
  apply Qle_bool_iff.
Qed.

Lemma putBehind_sorted c l :
  StronglySorted (fun a b => mayPrecede a b = true) l ->
  StronglySorted (fun a b => mayPrecede a b = true) (putBehind c l).
Proof.
  induction 1 as [|d l Hs IH Hall]; cbn [putBehind].
  - constructor; constructor.
  - destruct (mayPrecede d c) eqn:Hdc.
    + constructor; [exact IH|].
      apply (Permutation_Forall (putBehind_perm c l)).
      constructor; assumption.
    + apply mayPrecede_total in Hdc. constructor.
      * constructor; assumption.
      * constructor; [exact Hdc|].
        apply (Forall_impl _ (fun z Hz => mayPrecede_trans c d z Hdc Hz) Hall).
Qed.

Lemma tiesLastFirst_sorted rows :
  StronglySorted (fun a b => mayPrecede a b = true) (tiesLastFirst rows).
Proof.
  induction rows as [|c rows IH]; cbn [tiesLastFirst fold_right].
  - constructor.
  - apply putBehind_sorted, IH.
Qed.

Lemma StronglySorted_weaken {A} (R S : A -> A -> Prop) l :
  (forall a b, R a b -> S a b) -> StronglySorted R l -> StronglySorted S l.
Proof.
  intros HRS. induction 1 as [|a l Hs IH Hall]; constructor.
  - exact IH.
  - apply (Forall_impl _ (HRS a) Hall).
Qed.

(** Putting every row behind the rows of the same score is one way of
    keeping the contract of the query. *)
Lemma tiesLastFirst_orders : ordersByScoreDesc tiesLastFirst.
Proof.
  intros rows. split.
  - apply tiesLastFirst_perm.
  - apply (StronglySorted_weaken (fun a b => mayPrecede a b = true)).
    + apply mayPrecede_scoreNotBelow.
    + apply tiesLastFirst_sorted.
Qed.

End RankOrder.

(** C7, as the code has it: [rankCandidates] orders nothing itself.  It
    writes the scores of the AI service's answer into the stored rows
    and returns what the repository's query in descending order of
    score returns: all stored candidates, each once, with the new
    scores, a candidate never in front of one whose score is higher.
    The query has no second key, so which of two candidates with equal
    scores comes first is the database's choice, not the order of the
    input.  With no candidate stored the result is the empty list,
    whatever the AI service would answer; and when the AI service
    fails, the result is a BadRequestException, not an order. *)
Theorem C7_rank_in_descending_order_of_score :
  forall (aiService : RankRequest -> option (list RankedCandidate))
         (findOrderByScoreDesc : list Candidate -> list Candidate)
         (rankDto : RankCandidatesDto) (rows : list Candidate)
         (clk : Clock) (n : nat),
    ordersByScoreDesc findOrderByScoreDesc ->
    (rows = [] ->
     rankCandidates aiService findOrderByScoreDesc rankDto rows clk n
     = (Return [], n))
    /\ (rows <> [] ->
        forall rankedCandidates,
          aiService (rankRequest rankDto rows) = Some rankedCandidates ->
          exists result,
            rankCandidates aiService findOrderByScoreDesc rankDto rows clk n
            = (Return result, n)
            /\ Permutation (fold_left update rankedCandidates rows) result
            /\ StronglySorted scoreNotBelow result)
    /\ (rows <> [] ->
        aiService (rankRequest rankDto rows) = None ->
        rankCandidates aiService findOrderByScoreDesc rankDto rows clk n
        = (Throw (BadRequestException
                    "Failed to rank candidates. AI service may be unavailable."),
           n)).
Proof.
  intros aiService find rankDto rows clk n Hfind. split; [|split].
  - intros ->. reflexivity.
  - intros Hrows rankedCandidates Hai.
    destruct rows as [|c rows]; [contradiction|].
    exists (find (fold_left update rankedCandidates (c :: rows))).
    split; [|apply Hfind].
    unfold rankCandidates. rewrite Hai. reflexivity.
  - intros Hrows Hai. destruct rows as [|c rows]; [contradiction|].
    unfold rankCandidates. rewrite Hai. reflexivity.
Qed.

(** A witness: two stored candidates, ranked 50 and 80 by the AI
    service, come back from a query that keeps the contract. *)
Lemma C7_rank_in_descending_order_of_score_witness :
  exists result,
    rankCandidates (fun _ => Some [answer "a" 50; answer "b" 80])
      tiesLastFirst sampleRankDto [scored "a" 0; scored "b" 0]
      january2024 0%nat
    = (Return result, 0%nat)
    /\ Permutation
         (fold_left update [answer "a" 50; answer "b" 80]
                    [scored "a" 0; scored "b" 0])
         result
    /\ StronglySorted scoreNotBelow result.
Proof.
  apply (C7_rank_in_descending_order_of_score
           (fun _ => Some [answer "a" 50; answer "b" 80])
           tiesLastFirst sampleRankDto [scored "a" 0; scored "b" 0]
           january2024 0%nat).
  - apply tiesLastFirst_orders.
  - discriminate.
  - reflexivity.
Defined.

(** C7 fails as stated: the order of equal scores is not the order of
    the input.  Under a query that keeps the contract of descending
    order, two stored candidates "a" and "b" that the AI service both
    scores 70 come back as "b", "a". *)
Lemma C7_counterexample :
  ordersByScoreDesc tiesLastFirst
  /\ exists result,
       rankCandidates (fun _ => Some [answer "a" 70; answer "b" 70])
         tiesLastFirst sampleRankDto [scored "a" 0; scored "b" 0]
         january2024 0%nat
       = (Return result, 0%nat)
       /\ map score result = [Some (JS.Num 70); Some (JS.Num 70)]
       /\ map id result = ["b"; "a"]%string
       /\ map id result <> map id [scored "a" 0; scored "b" 0].
Proof.
  split; [apply tiesLastFirst_orders|].
  eexists. split; [vm_compute; reflexivity|].
  split; [reflexivity|]. split; [reflexivity|]. discriminate.
Qed.

(* ================================================================== *)
(** * Validation of a ranking request *)
(* ================================================================== *)

Section FormValidation.

Import Frontend.

Lemma handleSubmit_cases formData :
  ((Frontend.jobTitle formData = ""%string
    \/ Frontend.jobDescription formData = ""%string)
   /\ handleSubmit formData = Alert "Please fill in job title and description")
  \/ (Frontend.jobTitle formData <> ""%string
      /\ Frontend.jobDescription formData <> ""%string
      /\ filter nonBlank (Frontend.requiredSkills formData) = []
      /\ handleSubmit formData = Alert "Please add at least one required skill")
  \/ (Frontend.jobTitle formData <> ""%string
      /\ Frontend.jobDescription formData <> ""%string
      /\ filter nonBlank (Frontend.requiredSkills formData) <> []
      /\ exists body,
           handleSubmit formData = Post body
           /\ Frontend.requiredSkills body
              = filter nonBlank (Frontend.requiredSkills formData)).
Proof.
  unfold handleSubmit.
  destruct (String.eqb_spec (Frontend.jobTitle formData) "") as [Ht|Ht].
  - left. split; [left; exact Ht | reflexivity].
  - destruct (String.eqb_spec (Frontend.jobDescription formData) "") as [Hd|Hd].
    + left. split; [right; exact Hd | reflexivity].
    + right. cbn [orb].
      destruct (filter nonBlank (Frontend.requiredSkills formData)) as [|s l] eqn:Hf.
      * left. repeat split; assumption || reflexivity.
      * right. repeat split; try assumption; try discriminate.
        eexists. split; reflexivity.
Qed.

End FormValidation.

(** C8, as the code has it: a submission whose required skills are all
    blank is rejected with an alert and nothing is posted, so no
    candidate is scored and no result comes back; it is not the only
    validation: a submission is rejected exactly when the job title is
    empty, the job description is empty, or no required skill is left
    after the blank ones are dropped; and a request that is posted
    carries a non-empty list of non-blank required skills. *)
Theorem C8_blank_required_skills_rejected :
  forall formData : Frontend.FormData,
    (filter Frontend.nonBlank (Frontend.requiredSkills formData) = [] ->
     exists message, Frontend.handleSubmit formData = Frontend.Alert message)
    /\ ((exists message,
            Frontend.handleSubmit formData = Frontend.Alert message)
        <-> Frontend.jobTitle formData = ""%string
            \/ Frontend.jobDescription formData = ""%string
            \/ filter Frontend.nonBlank (Frontend.requiredSkills formData) = [])
    /\ (forall body,
           Frontend.handleSubmit formData = Frontend.Post body ->
           Frontend.requiredSkills body <> []
           /\ Forall (fun s => JS.trim s <> ""%string)
                     (Frontend.requiredSkills body)).
Proof.
  intros formData.
  destruct (handleSubmit_cases formData)
    as [[Hblank H] | [[Ht [Hd [Hf H]]] | [Ht [Hd [Hf [body [H Hb]]]]]]].
  - split; [|split].
    + intros _. eexists. exact H.
    + split; [|intros _; eexists; exact H].
      intros _. destruct Hblank; [left | right; left]; assumption.
    + intros body Hp. congruence.
  - split; [|split].
    + intros _. eexists. exact H.
    + split; [|intros _; eexists; exact H].
      intros _. right. right. exact Hf.
    + intros body Hp. congruence.
  - split; [|split].
    + intros Hf'. contradiction.
    + split.
      * intros [message Hm]. congruence.
      * intros [Ht' | [Hd' | Hf']]; contradiction.
    + intros body' Hp. assert (body' = body) as -> by congruence.
      rewrite Hb. split; [exact Hf|].
      apply Forall_forall. intros s Hs. apply filter_In in Hs.
      destruct Hs as [_ Hs]. unfold Frontend.nonBlank in Hs.
      intros Heq. rewrite Heq in Hs. discriminate.
Qed.


(** A witness: a form whose required skills are an empty row, a row of
    spaces and a row that holds an em space and an ideographic space is
    rejected. *)
Lemma C8_blank_required_skills_rejected_witness :
  exists message,
    Frontend.handleSubmit
      (sampleForm "iOS Developer"
         [""; "   "; emSpace ++ ideographicSpace]%string)
    = Frontend.Alert message.
Proof.
  destruct (C8_blank_required_skills_rejected
              (sampleForm "iOS Developer"
                 [""; "   "; emSpace ++ ideographicSpace]%string)) as [H _].
  apply H. reflexivity.
Defined.

(** C8 fails as stated: the check of the required skills is not the
    one validation.  A form that lists a required skill but has no job
    title is rejected as well, with another message. *)
Lemma C8_counterexample :
  filter Frontend.nonBlank
    (Frontend.requiredSkills (sampleForm "" ["Swift"]%string)) <> []
  /\ Frontend.handleSubmit (sampleForm "" ["Swift"]%string)
     = Frontend.Alert "Please fill in job title and description".
Proof.
  split; [discriminate | reflexivity].
Qed.

(* ================================================================== *)
(** * More on the years of experience *)
(* ================================================================== *)

Section YearsFacts.

Variable Date_parse : JS.DateConstructor.

Lemma roundOneDecimal_bounds x :
  x - (1 # 20) < Spec.roundOneDecimal x /\ Spec.roundOneDecimal x <= x + (1 # 20).
Proof.
  unfold Spec.roundOneDecimal.
  pose proof (Qfloor_le (x * 10 + (1 # 2))) as Hle.
  pose proof (Qlt_floor (x * 10 + (1 # 2))) as Hlt.
  rewrite inject_Z_plus in Hlt. change (inject_Z 1) with 1 in Hlt.
  set (k := inject_Z (Qfloor (x * 10 + (1 # 2)))) in *.
  split.
  - apply Qlt_shift_div_l; [reflexivity|].
    apply Qplus_lt_l with (z := 1). 
    apply Qle_lt_trans with (x * 10 + (1 # 2)); [|exact Hlt].
    apply Qle_lteq. right. ring.
  - apply Qle_shift_div_r; [reflexivity|].
    apply Qle_trans with (x * 10 + (1 # 2)); [exact Hle|].
    apply Qle_lteq. right. ring.
Qed.

Lemma roundOneDecimal_monotone x y :
  x <= y -> Spec.roundOneDecimal x <= Spec.roundOneDecimal y.
Proof.
  intros H. unfold Spec.roundOneDecimal.
  apply Qmult_le_compat_r; [|discriminate].
  rewrite <- Zle_Qle. apply Qfloor_resp_le.
  apply Qplus_le_l. apply Qmult_le_compat_r; [exact H | discriminate].
Qed.

Lemma existsb_perm {A} (f : A -> bool) l1 l2 :
  Permutation l1 l2 -> existsb f l1 = existsb f l2.
Proof.
  intros H. induction H; cbn.
  - reflexivity.
  - rewrite IHPermutation. reflexivity.
  - destruct (f x), (f y); reflexivity.
  - congruence.
Qed.

Lemma totalCounted_perm now l1 l2 :
  Permutation l1 l2 ->
  totalCounted Date_parse now l1 = totalCounted Date_parse now l2.
Proof.
  unfold totalCounted. intros H. induction H; cbn.
  - reflexivity.
  - rewrite IHPermutation. reflexivity.
  - lia.
  - congruence.
Qed.

(** Entries resolve, or have no end date, or are malformed. *)
Lemma resolves_or_bad exps :
  existsb missingEnd exps = false ->
  existsb (malformed Date_parse) exps = false ->
  forallb (resolves Date_parse) exps = true.
Proof.
  induction exps as [|exp exps IH]; [reflexivity|]. cbn.
  intros Hm Hb. apply orb_false_iff in Hm, Hb.
  destruct Hm as [Hm1 Hm2], Hb as [Hb1 Hb2].
  rewrite (IH Hm2 Hb2), andb_true_r.
  unfold malformed in Hb1. rewrite Hm1 in Hb1. cbn in Hb1.
  destruct (resolves Date_parse exp); [reflexivity | discriminate].
Qed.

Lemma calculateYears_missingEnd clk n exps :
  existsb missingEnd exps = true ->
  fst (Backend.calculateYearsOfExperience Date_parse (Some exps) clk n)
  = Backend.Throw Backend.TypeError.
Proof.
  intros Hm. destruct exps as [|exp exps]; [discriminate|].
  destruct (sumMonths_missingEnd Date_parse clk _ Hm (JS.Num 0) n) as [n' Hrun].
  unfold Backend.calculateYearsOfExperience.
  rewrite (bind_Throw _ _ _ _ _ _ Hrun). reflexivity.
Qed.

Lemma calculateYears_malformed clk n exps :
  existsb missingEnd exps = false ->
  existsb (malformed Date_parse) exps = true ->
  fst (Backend.calculateYearsOfExperience Date_parse (Some exps) clk n)
  = Backend.Return JS.NaN.
Proof.
  intros Hm Hb. destruct exps as [|exp exps]; [discriminate|].
  unfold Backend.calculateYearsOfExperience.
  rewrite (bind_Return _ _ _ _ _ _
             (sumMonths_malformed Date_parse clk _ Hm Hb (JS.Num 0) n)).
  reflexivity.
Qed.

(** An entry whose end is not "present" does not look at the clock. *)
Lemma monthsOf_not_present exp :
  isPresent (Backend.endDate exp) = false ->
  exists o, forall clk n, Backend.monthsOf Date_parse exp clk n = (o, n).
Proof.
  unfold isPresent, Backend.monthsOf. intros H.
  destruct (Backend.endDate exp) as [| |s|d];
    try (eexists; intros clk n; reflexivity).
  rewrite H. eexists. intros clk n. reflexivity.
Qed.

Lemma sumMonths_not_present exps :
  presentCount exps = 0%nat ->
  forall acc, exists o,
    forall clk n, Backend.sumMonths Date_parse exps acc clk n = (o, n).
Proof.
  induction exps as [|exp exps IH]; intros Hc acc.
  - eexists. intros clk n. reflexivity.
  - rewrite presentCount_cons in Hc.
    destruct (isPresent (Backend.endDate exp)) eqn:Hp; [discriminate|].
    destruct (monthsOf_not_present exp Hp) as [[m|e] Hm].
    + destruct (IH Hc (JS.add acc m)) as [o Ho].
      exists o. intros clk n. cbn [Backend.sumMonths].
      rewrite (bind_Return _ _ _ _ _ _ (Hm clk n)). apply Ho.
    + exists (Backend.Throw e). intros clk n. cbn [Backend.sumMonths].
      apply bind_Throw. apply Hm.
Qed.

(** The months of a well-formed entry do not shrink as time passes. *)
Lemma entryMonths_monotone now1 now2 exp :
  (monthIndex now1 <= monthIndex now2)%Z ->
  (Spec.entryMonths Date_parse now1 exp
   <= Spec.entryMonths Date_parse now2 exp)%Z.
Proof.
  unfold monthIndex, Spec.entryMonths, Spec.resolveEnd, Spec.monthsBetween.
  intros H.
  destruct (Spec.resolveStart Date_parse (Backend.startDate exp)); [|lia].
  destruct (Backend.endDate exp) as [| |s|d]; try lia.
  destruct (JS.toLowerCase s =? "present")%string; [lia|].
  destruct (JS.parse Date_parse s); lia.
Qed.

Lemma totalMonths_monotone now1 now2 exps :
  (monthIndex now1 <= monthIndex now2)%Z ->
  (Spec.totalMonths Date_parse now1 exps
   <= Spec.totalMonths Date_parse now2 exps)%Z.
Proof.
  intros H. unfold Spec.totalMonths.
  induction exps as [|exp exps IH]; cbn; [lia|].
  pose proof (entryMonths_monotone now1 now2 exp H). lia.
Qed.

End YearsFacts.

(** X1: whenever the derivation returns, the value is NaN or a number
    with at most one decimal (an integer number of tenths). *)
Theorem years_have_one_decimal :
  forall (Date_parse : JS.DateConstructor)
         (experience : option (list Backend.Experience))
         (clk : Backend.Clock) (n : nat) (v : JS.number),
    fst (Backend.calculateYearsOfExperience Date_parse experience clk n)
    = Backend.Return v ->
    v = JS.NaN
    \/ exists (k : Z) (q : Q), v = JS.Num q /\ q == inject_Z k / 10.
Proof.
  intros Date_parse experience clk n v H.
  destruct experience as [[|exp exps]|].
  - cbn in H. injection H as <-. right. exists 0%Z, 0. split; reflexivity.
  - unfold Backend.calculateYearsOfExperience, Backend.bind in H.
    destruct (Backend.sumMonths Date_parse (exp :: exps) (JS.Num 0) clk n)
      as [[[t|]|e] n']; cbn in H; try discriminate.
    + injection H as <-. right. eexists. eexists. split; reflexivity.
    + injection H as <-. left. reflexivity.
  - cbn in H. injection H as <-. right. exists 0%Z, 0. split; reflexivity.
Qed.

Lemma years_have_one_decimal_witness :
  JS.Num (53 # 10) = JS.NaN
  \/ exists (k : Z) (q : Q), JS.Num (53 # 10) = JS.Num q /\ q == inject_Z k / 10.
Proof.
  apply (years_have_one_decimal isoMonth
           (Some [job "2020-01" "Present"; job "2019-03" "2020-06"])
           january2024 0%nat).
  vm_compute. reflexivity.
Defined.

(** X2: for well-formed entries and a clock that reads [now], the
    derived years are within 0.05 of the exact number of years, the
    month total over twelve. *)
Theorem years_within_a_twentieth :
  forall (Date_parse : JS.DateConstructor) (clk : Backend.Clock)
         (now : Z * Z) (n : nat) (exps : list Backend.Experience),
    (forall i, clk i = now) ->
    forallb (wellFormed Date_parse) exps = true ->
    exists q,
      fst (Backend.calculateYearsOfExperience Date_parse (Some exps) clk n)
      = Backend.Return (JS.Num q)
      /\ inject_Z (Spec.totalMonths Date_parse now exps) / 12 - (1 # 20) < q
      /\ q <= inject_Z (Spec.totalMonths Date_parse now exps) / 12 + (1 # 20).
Proof.
  intros Date_parse clk now n exps Hclk Hwf.
  destruct (calculateYears_wellFormed Date_parse clk now n (Some exps) Hclk)
    as [q [Hrun Hq]].
  - intros l H. injection H as <-. exact Hwf.
  - exists q. split; [exact Hrun|]. cbn [Spec.derivedYears] in Hq.
    rewrite Hq. apply roundOneDecimal_bounds.
Qed.

Lemma years_within_a_twentieth_witness :
  exists q,
    fst (Backend.calculateYearsOfExperience isoMonth
           (Some [job "2020-01" "Present"; job "2019-03" "2020-06"])
           january2024 0%nat)
    = Backend.Return (JS.Num q)
    /\ (63 # 12) - (1 # 20) < q /\ q <= (63 # 12) + (1 # 20).
Proof.
  destruct (years_within_a_twentieth isoMonth january2024 (2024, 0)%Z 0%nat
              [job "2020-01" "Present"; job "2019-03" "2020-06"])
    as [q [Hrun [Hlo Hhi]]].
  - intros i. reflexivity.
  - reflexivity.
  - exists q. split; [exact Hrun|]. split.
    + eapply Qle_lt_trans; [|exact Hlo]. vm_compute. discriminate.
    + eapply Qle_trans; [exact Hhi|]. vm_compute. discriminate.
Defined.

(** X3: the order of the experience entries does not matter.  Under a
    clock that reads [now], two lists with the same entries in another
    order end the same way: both throw the TypeError, or both return
    NaN, or both return the same number. *)
Theorem years_do_not_depend_on_order :
  forall (Date_parse : JS.DateConstructor) (clk : Backend.Clock)
         (now : Z * Z) (n1 n2 : nat) (l1 l2 : list Backend.Experience),
    (forall i, clk i = now) ->
    Permutation l1 l2 ->
    sameOutcome
      (fst (Backend.calculateYearsOfExperience Date_parse (Some l1) clk n1))
      (fst (Backend.calculateYearsOfExperience Date_parse (Some l2) clk n2)).
Proof.
  intros Date_parse clk now n1 n2 l1 l2 Hclk Hperm.
  destruct (existsb missingEnd l1) eqn:Hm1.
  - rewrite (calculateYears_missingEnd Date_parse clk n1 l1 Hm1).
    rewrite (existsb_perm _ _ _ Hperm) in Hm1.
    rewrite (calculateYears_missingEnd Date_parse clk n2 l2 Hm1).
    reflexivity.
  - destruct (existsb (malformed Date_parse) l1) eqn:Hb1.
    + rewrite (calculateYears_malformed Date_parse clk n1 l1 Hm1 Hb1).
      rewrite (existsb_perm _ _ _ Hperm) in Hm1.
      rewrite (existsb_perm _ _ _ Hperm) in Hb1.
      rewrite (calculateYears_malformed Date_parse clk n2 l2 Hm1 Hb1).
      exact I.
    + pose proof (resolves_or_bad Date_parse l1 Hm1 Hb1) as Hwf1.
      rewrite (existsb_perm _ _ _ Hperm) in Hm1.
      rewrite (existsb_perm _ _ _ Hperm) in Hb1.
      pose proof (resolves_or_bad Date_parse l2 Hm1 Hb1) as Hwf2.
      destruct (calculateYears_resolves Date_parse clk now n1 l1 Hclk Hwf1)
        as [q1 [Hr1 Hq1]].
      destruct (calculateYears_resolves Date_parse clk now n2 l2 Hclk Hwf2)
        as [q2 [Hr2 Hq2]].
      rewrite Hr1, Hr2. cbn. rewrite Hq1, Hq2.
      rewrite (totalCounted_perm Date_parse now l1 l2 Hperm). reflexivity.
Qed.

Lemma years_do_not_depend_on_order_witness :
  sameOutcome
    (fst (Backend.calculateYearsOfExperience isoMonth
            (Some [job "2020-01" "Present"; job "2019-03" "2020-06"])
            january2024 0%nat))
    (fst (Backend.calculateYearsOfExperience isoMonth
            (Some [job "2019-03" "2020-06"; job "2020-01" "Present"])
            january2024 5%nat)).
Proof.
  apply (years_do_not_depend_on_order isoMonth january2024 (2024, 0)%Z).
  - intros i. reflexivity.
  - apply perm_swap.
Defined.

(** X4: a list without any "present" entry is derived without reading
    the clock, and comes out the same under any two clocks. *)
Theorem years_without_present_ignore_the_clock :
  forall (Date_parse : JS.DateConstructor) (exps : list Backend.Experience)
         (clk1 clk2 : Backend.Clock) (n1 n2 : nat),
    presentCount exps = 0%nat ->
    fst (Backend.calculateYearsOfExperience Date_parse (Some exps) clk1 n1)
    = fst (Backend.calculateYearsOfExperience Date_parse (Some exps) clk2 n2)
    /\ snd (Backend.calculateYearsOfExperience Date_parse (Some exps) clk1 n1)
       = n1.
Proof.
  intros Date_parse exps clk1 clk2 n1 n2 Hc.
  destruct exps as [|exp exps]; [split; reflexivity|].
  destruct (sumMonths_not_present Date_parse (exp :: exps) Hc (JS.Num 0))
    as [[t|e] Ho]; unfold Backend.calculateYearsOfExperience.
  - rewrite (bind_Return _ _ _ _ _ _ (Ho clk1 n1)).
    rewrite (bind_Return _ _ _ _ _ _ (Ho clk2 n2)). split; reflexivity.
  - rewrite (bind_Throw _ _ _ _ _ _ (Ho clk1 n1)).
    rewrite (bind_Throw _ _ _ _ _ _ (Ho clk2 n2)). split; reflexivity.
Qed.

Lemma years_without_present_ignore_the_clock_witness :
  fst (Backend.calculateYearsOfExperience isoMonth
         (Some [job "2019-03" "2020-06"; job "soon" "2021-01"]) january2024 0%nat)
  = fst (Backend.calculateYearsOfExperience isoMonth
           (Some [job "2019-03" "2020-06"; job "soon" "2021-01"]) advancing 3%nat)
  /\ snd (Backend.calculateYearsOfExperience isoMonth
            (Some [job "2019-03" "2020-06"; job "soon" "2021-01"])
            january2024 0%nat) = 0%nat.
Proof.
  apply (years_without_present_ignore_the_clock isoMonth
           [job "2019-03" "2020-06"; job "soon" "2021-01"]).
  reflexivity.
Defined.

(** X5: the years of a well-formed list do not go down as time passes:
    derived at a later month, they are at least what they were. *)
Theorem years_grow_with_time :
  forall (Date_parse : JS.DateConstructor) (clk1 clk2 : Backend.Clock)
         (now1 now2 : Z * Z) (n1 n2 : nat) (exps : list Backend.Experience),
    (forall i, clk1 i = now1) ->
    (forall i, clk2 i = now2) ->
    (monthIndex now1 <= monthIndex now2)%Z ->
    forallb (wellFormed Date_parse) exps = true ->
    exists q1 q2,
      fst (Backend.calculateYearsOfExperience Date_parse (Some exps) clk1 n1)
      = Backend.Return (JS.Num q1)
      /\ fst (Backend.calculateYearsOfExperience Date_parse (Some exps) clk2 n2)
         = Backend.Return (JS.Num q2)
      /\ q1 <= q2.
Proof.
  intros Date_parse clk1 clk2 now1 now2 n1 n2 exps H1 H2 Hle Hwf.
  destruct (calculateYears_wellFormed Date_parse clk1 now1 n1 (Some exps) H1)
    as [q1 [Hr1 Hq1]]; [intros l H; injection H as <-; exact Hwf|].
  destruct (calculateYears_wellFormed Date_parse clk2 now2 n2 (Some exps) H2)
    as [q2 [Hr2 Hq2]]; [intros l H; injection H as <-; exact Hwf|].
  exists q1, q2. split; [exact Hr1|]. split; [exact Hr2|].
  rewrite Hq1, Hq2. cbn [Spec.derivedYears].
  apply roundOneDecimal_monotone.
  apply Qmult_le_compat_r; [|discriminate].
  rewrite <- Zle_Qle. apply totalMonths_monotone. exact Hle.
Qed.

Lemma years_grow_with_time_witness :
  exists q1 q2,
    fst (Backend.calculateYearsOfExperience isoMonth
           (Some [job "2020-01" "present"]) january2024 0%nat)
    = Backend.Return (JS.Num q1)
    /\ fst (Backend.calculateYearsOfExperience isoMonth
              (Some [job "2020-01" "present"]) (fun _ => (2024, 6)%Z) 0%nat)
       = Backend.Return (JS.Num q2)
    /\ q1 <= q2.
Proof.
  apply (years_grow_with_time isoMonth january2024 (fun _ => (2024, 6)%Z)
           (2024, 0)%Z (2024, 6)%Z).
  - intros i. reflexivity.
  - intros i. reflexivity.
  - vm_compute. discriminate.
  - reflexivity.
Defined.

(* ================================================================== *)
(** * What a ranking writes and sends *)
(* ================================================================== *)

Section RankingFacts.

Import Backend.

Lemma update_withoutScore rows r :
  map withoutScore (update rows r) = map withoutScore rows.
Proof.
  unfold update. rewrite map_map. apply map_ext. intros c.
  destruct (id c =? candidate_id r)%string; reflexivity.
Qed.

(** One candidate after all the answers have been written. *)
Lemma fold_update_pointwise rankedCandidates rows :
  fold_left update rankedCandidates rows
  = map (fun c =>
           match lastRanking rankedCandidates c with
           | Some r =>
               {| id := id c; email := email c; fullName := fullName c;
                  phone := phone c; skills := skills c;
                  experience := experience c; education := education c;
                  score := Some (rc_score r);
                  scoringDetails := Some (scoring_details r);
                  yearsOfExperience := yearsOfExperience c;
                  status := status c |}
           | None => c
           end) rows.
Proof.
  induction rankedCandidates as [|r ranked IH] using rev_ind.
  - cbn. symmetry. apply map_id.
  - rewrite fold_left_app. cbn [fold_left]. rewrite IH.
    unfold update at 1. rewrite map_map. apply map_ext. intros c.
    unfold lastRanking. rewrite rev_app_distr. cbn [rev app find].
    fold (lastRanking ranked c).
    destruct (lastRanking ranked c) as [r0|]; cbn [id];
      destruct (id c =? candidate_id r)%string; reflexivity.
Qed.

Lemma numOr_not_NaN v : numOr v (JS.Num 0) <> JS.NaN.
Proof.
  destruct v as [[q|]|]; cbn; try discriminate.
  destruct (Qeq_bool q 0); discriminate.
Qed.

End RankingFacts.

(** X7: after the answers are written, a stored candidate has the score
    and the details of the last answer that names its id; a candidate
    that no answer names keeps what it had; an answer that names no
    stored candidate changes nothing. *)
Theorem ranking_writes_the_last_answer :
  forall (rankedCandidates : list Backend.RankedCandidate)
         (rows : list Backend.Candidate),
    map Backend.score (fold_left Backend.update rankedCandidates rows)
    = map (fun c =>
             match lastRanking rankedCandidates c with
             | Some r => Some (Backend.rc_score r)
             | None => Backend.score c
             end) rows
    /\ map Backend.scoringDetails
           (fold_left Backend.update rankedCandidates rows)
       = map (fun c =>
                match lastRanking rankedCandidates c with
                | Some r => Some (Backend.scoring_details r)
                | None => Backend.scoringDetails c
                end) rows
    /\ ((forall r c, In r rankedCandidates -> In c rows ->
                     Backend.candidate_id r <> Backend.id c) ->
        fold_left Backend.update rankedCandidates rows = rows).
Proof.
  intros ranked rows. rewrite fold_update_pointwise.
  split; [|split].
  - rewrite map_map. apply map_ext. intros c.
    destruct (lastRanking ranked c); reflexivity.
  - rewrite map_map. apply map_ext. intros c.
    destruct (lastRanking ranked c); reflexivity.
  - intros Hno. rewrite <- (map_id rows) at 2. apply map_ext_in.
    intros c Hc. unfold lastRanking.
    destruct (find _ (rev ranked)) as [r|] eqn:Hf; [|reflexivity].
    apply find_some in Hf. destruct Hf as [Hin Heq].
    apply in_rev in Hin. apply String.eqb_eq in Heq.
    exfalso. apply (Hno r c Hin Hc). symmetry. exact Heq.
Qed.

Lemma ranking_writes_the_last_answer_witness :
  fold_left Backend.update [answer "zoe" 50]
    [stored "a" (JS.Num 1); stored "b" JS.NaN]
  = [stored "a" (JS.Num 1); stored "b" JS.NaN].
Proof.
  apply (ranking_writes_the_last_answer [answer "zoe" 50]
           [stored "a" (JS.Num 1); stored "b" JS.NaN]).
  intros r c [<- | []] [<- | [<- | []]]; discriminate.
Defined.

(** X8: the request to the AI service lists the stored candidates one
    for one, in the order of the repository, and carries no NaN: stored
    years that are NaN, 0 or null are sent as 0, and so are the minimum
    years of the job. *)
Theorem rank_request_has_no_NaN :
  forall (rankDto : Backend.RankCandidatesDto) (rows : list Backend.Candidate),
    let request := Backend.rankRequest rankDto rows in
    map Backend.p_id (Backend.candidates request) = map Backend.id rows
    /\ Forall (fun p => Backend.years_of_experience p <> JS.NaN)
              (Backend.candidates request)
    /\ Backend.min_years_experience (Backend.job_requirements request) <> JS.NaN
    /\ (forall c, In c rows ->
          Backend.yearsOfExperience c = Some JS.NaN
          \/ Backend.yearsOfExperience c = None ->
          Backend.years_of_experience (Backend.candidatePayload c) = JS.Num 0).
Proof.
  intros rankDto rows request. unfold request, Backend.rankRequest. cbn.
  split; [|split; [|split]].
  - rewrite map_map. reflexivity.
  - apply Forall_forall. intros p Hp. apply in_map_iff in Hp.
    destruct Hp as [c [<- _]]. cbn. apply numOr_not_NaN.
  - apply numOr_not_NaN.
  - intros c _ [H | H]; unfold Backend.candidatePayload; cbn; rewrite H;
      reflexivity.
Qed.

Lemma rank_request_has_no_NaN_witness :
  Backend.years_of_experience (Backend.candidatePayload (stored "b" JS.NaN))
  = JS.Num 0.
Proof.
  destruct (rank_request_has_no_NaN sampleRankDto
              [stored "a" (JS.Num 1); stored "b" JS.NaN]) as [_ [_ [_ H]]].
  apply (H (stored "b" JS.NaN)).
  - right. left. reflexivity.
  - left. reflexivity.
Defined.

(* ================================================================== *)
(** * Uploading and deleting candidates *)
(* ================================================================== *)

Section StoreFacts.

Import Backend.

Variable Date_parse : JS.DateConstructor.
Variable aiParse : string -> option ParsedCv.

(** What [Backend.uploadCv] returns when the email is new. *)
Lemma uploadCv_returns uploadCvDto parsedData newId clk n c n' :
  Backend.uploadCv Date_parse uploadCvDto None parsedData newId clk n
  = (Return c, n') ->
  exists years,
    calculateYearsOfExperience Date_parse (cv_experience parsedData) clk (S n)
    = (Return years, n')
    /\ c = {| id := newId;
              email := dto_email uploadCvDto;
              fullName := dto_fullName uploadCvDto;
              phone := strOr (dto_phone uploadCvDto) (cv_phone parsedData);
              skills := Some (orDefault (cv_skills parsedData) []);
              experience := Some (orDefault (cv_experience parsedData) []);
              education := Some (orDefault (cv_education parsedData) []);
              score := Some (JS.Num 0);
              scoringDetails := None;
              yearsOfExperience := Some years;
              status := "pending" |}.
Proof.
  unfold Backend.uploadCv.
  rewrite (bind_Return _ _ _ _ tt (S n) eq_refl).
  unfold bind at 1.
  destruct (calculateYearsOfExperience Date_parse (cv_experience parsedData)
              clk (S n)) as [[years|e] m]; cbn; intros H; [|discriminate].
  injection H as <- <-. exists years. split; reflexivity.
Qed.

Lemma uploadCv_throws uploadCvDto parsedData newId clk n e n' :
  Backend.uploadCv Date_parse uploadCvDto None parsedData newId clk n
  = (Throw e, n') ->
  calculateYearsOfExperience Date_parse (cv_experience parsedData) clk (S n)
  = (Throw e, n').
Proof.
  unfold Backend.uploadCv.
  rewrite (bind_Return _ _ _ _ tt (S n) eq_refl).
  unfold bind at 1.
  destruct (calculateYearsOfExperience Date_parse (cv_experience parsedData)
              clk (S n)) as [[years|e0] m]; cbn; intros H; [discriminate|].
  injection H as <- <-. reflexivity.
Qed.

Lemma uploadCv_of_years uploadCvDto parsedData newId clk n years n' :
  calculateYearsOfExperience Date_parse (cv_experience parsedData) clk (S n)
  = (Return years, n') ->
  exists c,
    Backend.uploadCv Date_parse uploadCvDto None parsedData newId clk n
    = (Return c, n')
    /\ id c = newId /\ email c = dto_email uploadCvDto
    /\ yearsOfExperience c = Some years.
Proof.
  intros H. unfold Backend.uploadCv.
  rewrite (bind_Return _ _ _ _ tt (S n) eq_refl).
  rewrite (bind_Return _ _ _ _ _ _ H).
  eexists. repeat split.
Qed.

Lemma findByEmail_None e rs :
  Store.findByEmail e rs = None
  <-> ~ In e (map (fun r => email (Store.entity r)) rs).
Proof.
  unfold Store.findByEmail. induction rs as [|r rs IH]; cbn.
  - split; [intros _ [] | reflexivity].
  - destruct (String.eqb_spec (email (Store.entity r)) e) as [Heq|Hne].
    + split; [discriminate|]. intros H. exfalso. apply H. left. exact Heq.
    + rewrite IH. split.
      * intros H [Hr|Hr]; [contradiction | exact (H Hr)].
      * intros H Hr. apply H. right. exact Hr.
Qed.

Lemma findById_filter_same i rs :
  Store.findById i
    (filter (fun r => negb (id (Store.entity r) =? i)%string) rs) = None.
Proof.
  unfold Store.findById. induction rs as [|r rs IH]; cbn; [reflexivity|].
  destruct (id (Store.entity r) =? i)%string eqn:H; cbn; [exact IH|].
  rewrite H. exact IH.
Qed.

Lemma findById_filter_other i j rs :
  j <> i ->
  Store.findById j
    (filter (fun r => negb (id (Store.entity r) =? i)%string) rs)
  = Store.findById j rs.
Proof.
  intros Hne. unfold Store.findById.
  induction rs as [|r rs IH]; cbn; [reflexivity|].
  destruct (String.eqb_spec (id (Store.entity r)) i) as [Hi|Hi]; cbn.
  - destruct (String.eqb_spec (id (Store.entity r)) j) as [Hj|Hj];
      [congruence | exact IH].
  - destruct (id (Store.entity r) =? j)%string; [reflexivity | exact IH].
Qed.

Lemma filter_shorter i rs r :
  Store.findById i rs = Some r ->
  (length (filter (fun r => negb (id (Store.entity r) =? i)%string) rs)
   < length rs)%nat.
Proof.
  unfold Store.findById. induction rs as [|r0 rs IH]; cbn; [discriminate|].
  destruct (id (Store.entity r0) =? i)%string; cbn.
  - intros _.
    pose proof (filter_length_le
                  (fun r => negb (id (Store.entity r) =? i)%string) rs).
    lia.
  - intros H. specialize (IH H). lia.
Qed.

Lemma filter_keeps_all i rs :
  Store.findById i rs = None ->
  filter (fun r => negb (id (Store.entity r) =? i)%string) rs = rs.
Proof.
  unfold Store.findById. induction rs as [|r rs IH]; cbn; [reflexivity|].
  destruct (id (Store.entity r) =? i)%string; cbn; [discriminate|].
  intros H. rewrite (IH H). reflexivity.
Qed.

Lemma findById_last i rs r :
  Store.findById i rs = None ->
  id (Store.entity r) = i ->
  Store.findById i (rs ++ [r]) = Some r.
Proof.
  unfold Store.findById. intros Hn Hi.
  induction rs as [|r0 rs IH]; cbn in *.
  - rewrite Hi, String.eqb_refl. reflexivity.
  - destruct (id (Store.entity r0) =? i)%string; [discriminate | exact (IH Hn)].
Qed.

Section DeleteFacts.

Variable unlinkSync : string -> bool.
Variable aiCleanup : string -> bool.

Lemma removeCvFile_rows r w :
  Store.rows (Store.removeCvFile unlinkSync r w) = Store.rows w.
Proof.
  unfold Store.removeCvFile. destruct (Store.cvFilePath r) as [p|]; [|reflexivity].
  destruct (negb (p =? "")%string && Store.existsSync p w); [|reflexivity].
  destruct (unlinkSync p); reflexivity.
Qed.

Lemma removeCvFile_files r w p :
  (In p (Store.files (Store.removeCvFile unlinkSync r w)) ->
   In p (Store.files w))
  /\ (Store.cvFilePath r <> Some p -> In p (Store.files w) ->
      In p (Store.files (Store.removeCvFile unlinkSync r w))).
Proof.
  unfold Store.removeCvFile. destruct (Store.cvFilePath r) as [q|];
    [|split; intros; assumption].
  destruct (negb (q =? "")%string && Store.existsSync q w);
    [|split; intros; assumption].
  destruct (unlinkSync q); [|split; intros; assumption].
  cbn. split.
  - intros H. apply filter_In in H. apply H.
  - intros Hq H. apply filter_In. split; [exact H|].
    destruct (String.eqb_spec p q) as [->|]; [contradiction | reflexivity].
Qed.

Lemma deleteCandidate_found i w r :
  Store.findById i (Store.rows w) = Some r ->
  Store.deleteCandidate unlinkSync aiCleanup i w
  = (Store.Ok tt,
     {| Store.rows :=
          filter (fun r => negb (id (Store.entity r) =? i)%string)
                 (Store.rows w);
        Store.files := Store.files (Store.removeCvFile unlinkSync r w) |}).
Proof.
  intros Hf. unfold Store.deleteCandidate, Store.findOne. rewrite Hf.
  cbn zeta. rewrite removeCvFile_rows.
  pose proof (filter_shorter i (Store.rows w) r Hf) as Hlt.
  destruct (Nat.eqb_spec
              (length (Store.rows w)
               - length (filter (fun r => negb (id (Store.entity r) =? i)%string)
                                (Store.rows w))) 0); [lia | reflexivity].
Qed.

End DeleteFacts.

End StoreFacts.

(** X9: uploads keep the emails of the repository distinct.  Whatever
    the outcome, different stored candidates still have different
    emails afterwards; and an upload for an email that is already
    stored is rejected before anything happens: no file is written, no
    clock is read and the repository is as it was. *)
Theorem upload_keeps_emails_distinct :
  forall (Date_parse : JS.DateConstructor)
         (aiParse : string -> option Backend.ParsedCv)
         (uploadCvDto : Backend.UploadCvDto) (filePath newId : string)
         (w : Store.World) (clk : Backend.Clock) (n : nat),
    let emails (w : Store.World) :=
      map (fun r => Backend.email (Store.entity r)) (Store.rows w) in
    let after :=
      Store.uploadCv Date_parse aiParse uploadCvDto filePath newId w clk n in
    NoDup (emails w) ->
    NoDup (emails (snd (fst after)))
    /\ (In (Backend.dto_email uploadCvDto) (emails w) ->
        after
        = (Backend.Throw
             (Backend.BadRequestException
                "Candidate with this email already exists"), w, n)).
Proof.
  intros Date_parse aiParse dto filePath newId w clk n emails after Hnd.
  unfold after, Store.uploadCv.
  destruct (Store.findByEmail (Backend.dto_email dto) (Store.rows w))
    as [r|] eqn:Hf.
  - split; [exact Hnd | reflexivity].
  - apply findByEmail_None in Hf. split; [|intros Hin; contradiction].
    cbn zeta.
    destruct (Backend.uploadCv Date_parse dto None
                (Store.parseCvWithAI aiParse filePath) newId clk n)
      as [[c|e] n'] eqn:Hup; cbn; [|exact Hnd].
    destruct (uploadCv_returns _ _ _ _ _ _ _ _ Hup) as [years [_ ->]].
    unfold emails. cbn. rewrite map_app. cbn.
    apply NoDup_app_remove_l with (l := []). cbn.
    apply Permutation_NoDup with
      (l := Backend.dto_email dto
            :: map (fun r => Backend.email (Store.entity r)) (Store.rows w)).
    + apply Permutation_cons_append.
    + constructor; assumption.
Qed.

Lemma upload_keeps_emails_distinct_witness :
  Store.uploadCv isoMonth (fun _ => None) (dtoOf "a") "uploads/3-a.pdf" "c"
    sampleWorld january2024 0%nat
  = (Backend.Throw
       (Backend.BadRequestException "Candidate with this email already exists"),
     sampleWorld, 0%nat).
Proof.
  apply (upload_keeps_emails_distinct isoMonth (fun _ => None) (dtoOf "a")
           "uploads/3-a.pdf" "c" sampleWorld january2024 0%nat).
  - repeat constructor; cbn; intuition discriminate.
  - left. reflexivity.
Defined.

(** X10: an upload that fails on an end date leaves its file behind.
    When the parsed CV of a new email has an experience entry whose
    [endDate] is not a string, the upload throws the TypeError of
    [calculateYearsOfExperience]; by then the CV file is written, so
    the file stays in the upload directory while no candidate is
    stored. *)
Theorem upload_leaves_the_file_when_an_end_date_is_missing :
  forall (Date_parse : JS.DateConstructor)
         (aiParse : string -> option Backend.ParsedCv)
         (uploadCvDto : Backend.UploadCvDto) (filePath newId : string)
         (w : Store.World) (clk : Backend.Clock) (n : nat)
         (entries : list Backend.Experience),
    Store.findByEmail (Backend.dto_email uploadCvDto) (Store.rows w) = None ->
    Backend.cv_experience (Store.parseCvWithAI aiParse filePath)
    = Some entries ->
    existsb missingEnd entries = true ->
    let after :=
      Store.uploadCv Date_parse aiParse uploadCvDto filePath newId w clk n in
    fst (fst after) = Backend.Throw Backend.TypeError
    /\ Store.rows (snd (fst after)) = Store.rows w
    /\ Store.files (snd (fst after)) = filePath :: Store.files w.
Proof.
  intros Date_parse aiParse dto filePath newId w clk n exps Hnew Hexp Hm after.
  unfold after, Store.uploadCv. rewrite Hnew. cbn zeta.
  set (parsed := Store.parseCvWithAI aiParse filePath) in *.
  destruct (Backend.uploadCv Date_parse dto None parsed newId clk n)
    as [[c|e] n'] eqn:Hup.
  - exfalso. destruct (uploadCv_returns _ _ _ _ _ _ _ _ Hup) as [y [Hy _]].
    rewrite Hexp in Hy.
    pose proof (calculateYears_missingEnd Date_parse clk (S n) exps Hm) as Ht.
    rewrite Hy in Ht. discriminate.
  - apply uploadCv_throws in Hup. rewrite Hexp in Hup.
    pose proof (calculateYears_missingEnd Date_parse clk (S n) exps Hm) as Ht.
    rewrite Hup in Ht. cbn in Ht. injection Ht as ->.
    repeat split.
Qed.

Lemma upload_leaves_the_file_when_an_end_date_is_missing_witness :
  let after :=
    Store.uploadCv isoMonth
      (fun _ => Some {| Backend.cv_skills := None;
                        Backend.cv_experience := Some [jobNoEnd "2021-02"];
                        Backend.cv_education := None;
                        Backend.cv_phone := None |})
      (dtoOf "zoe") "uploads/3-zoe.pdf" "c" sampleWorld january2024 0%nat in
  fst (fst after) = Backend.Throw Backend.TypeError
  /\ Store.rows (snd (fst after)) = Store.rows sampleWorld
  /\ Store.files (snd (fst after))
     = "uploads/3-zoe.pdf"%string :: Store.files sampleWorld.
Proof.
  apply (upload_leaves_the_file_when_an_end_date_is_missing isoMonth
           (fun _ => Some {| Backend.cv_skills := None;
                             Backend.cv_experience :=
                               Some [jobNoEnd "2021-02"];
                             Backend.cv_education := None;
                             Backend.cv_phone := None |})
           (dtoOf "zoe") "uploads/3-zoe.pdf" "c" sampleWorld january2024 0%nat
           [jobNoEnd "2021-02"]);
    reflexivity.
Defined.

(** X11: when the CV parser fails, the upload still succeeds: the
    candidate is stored with no skills, no experience, no education,
    0 years of experience and the phone number of the form, and the
    clock was read once, for the file name. *)
Theorem upload_survives_a_failed_parse :
  forall (Date_parse : JS.DateConstructor)
         (aiParse : string -> option Backend.ParsedCv)
         (uploadCvDto : Backend.UploadCvDto) (filePath newId : string)
         (w : Store.World) (clk : Backend.Clock) (n : nat),
    Store.findByEmail (Backend.dto_email uploadCvDto) (Store.rows w) = None ->
    aiParse filePath = None ->
    exists c,
      Store.uploadCv Date_parse aiParse uploadCvDto filePath newId w clk n
      = (Backend.Return c,
         {| Store.rows :=
              Store.rows w
              ++ [{| Store.entity := c; Store.cvFilePath := Some filePath |}];
            Store.files := filePath :: Store.files w |},
         S n)
      /\ Backend.skills c = Some []
      /\ Backend.experience c = Some []
      /\ Backend.education c = Some []
      /\ Backend.yearsOfExperience c = Some (JS.Num 0)
      /\ Backend.phone c
         = Backend.strOr (Backend.dto_phone uploadCvDto) None.
Proof.
  intros Date_parse aiParse dto filePath newId w clk n Hnew Hfail.
  unfold Store.uploadCv, Store.parseCvWithAI. rewrite Hnew, Hfail.
  eexists. repeat split.
Qed.

Lemma upload_survives_a_failed_parse_witness :
  exists c,
    fst (fst (Store.uploadCv isoMonth (fun _ => None) (dtoOf "zoe")
                "uploads/3-zoe.pdf" "c" sampleWorld january2024 0%nat))
    = Backend.Return c
    /\ Backend.yearsOfExperience c = Some (JS.Num 0).
Proof.
  destruct (upload_survives_a_failed_parse isoMonth (fun _ => None)
              (dtoOf "zoe") "uploads/3-zoe.pdf" "c" sampleWorld
              january2024 0%nat) as [c [Hc [_ [_ [_ [Hy _]]]]]];
    [reflexivity | reflexivity |].
  exists c. rewrite Hc. split; [reflexivity | exact Hy].
Defined.

(** X12: a malformed date ends as 0 years in a ranking.  When every
    entry of the parsed CV has an end date and some date is not a date,
    the upload returns a candidate whose years of experience are NaN,
    and the object that a ranking makes of that candidate for the AI
    service has 0 years of experience. *)
Theorem malformed_dates_are_ranked_as_zero_years :
  forall (Date_parse : JS.DateConstructor)
         (uploadCvDto : Backend.UploadCvDto) (parsedData : Backend.ParsedCv)
         (newId : string) (exps : list Backend.Experience)
         (clk : Backend.Clock) (n : nat),
    Backend.cv_experience parsedData = Some exps ->
    existsb missingEnd exps = false ->
    existsb (malformed Date_parse) exps = true ->
    exists c,
      fst (Backend.uploadCv Date_parse uploadCvDto None parsedData newId clk n)
      = Backend.Return c
      /\ Backend.yearsOfExperience c = Some JS.NaN
      /\ Backend.years_of_experience (Backend.candidatePayload c) = JS.Num 0.
Proof.
  intros Date_parse dto parsed newId exps clk n Hexp Hm Hb.
  destruct (calculateYears_reads Date_parse clk exps (S n) Hm) as [v Hv].
  pose proof (calculateYears_malformed Date_parse clk (S n) exps Hm Hb) as Hn.
  rewrite Hv in Hn. cbn in Hn. injection Hn as ->.
  destruct (uploadCv_of_years Date_parse dto parsed newId clk n JS.NaN
              (S n + presentCount exps)%nat)
    as [c [Hup [_ [_ Hy]]]]; [rewrite Hexp; exact Hv|].
  exists c. rewrite Hup. split; [reflexivity|]. split; [exact Hy|].
  unfold Backend.candidatePayload. cbn. rewrite Hy. reflexivity.
Qed.

Lemma malformed_dates_are_ranked_as_zero_years_witness :
  exists c,
    fst (Backend.uploadCv isoMonth (dtoOf "zoe") None
           {| Backend.cv_skills := None;
              Backend.cv_experience :=
                Some [job "2020-01" "2021-01"; job "soon" "2021-06"];
              Backend.cv_education := None;
              Backend.cv_phone := None |}
           "c" january2024 0%nat)
    = Backend.Return c
    /\ Backend.yearsOfExperience c = Some JS.NaN
    /\ Backend.years_of_experience (Backend.candidatePayload c) = JS.Num 0.
Proof.
  apply (malformed_dates_are_ranked_as_zero_years isoMonth (dtoOf "zoe")
           {| Backend.cv_skills := None;
              Backend.cv_experience :=
                Some [job "2020-01" "2021-01"; job "soon" "2021-06"];
              Backend.cv_education := None;
              Backend.cv_phone := None |}
           "c" [job "2020-01" "2021-01"; job "soon" "2021-06"]);
    reflexivity.
Defined.

(** X13: deleting.  For an id that is not stored, [deleteCandidate]
    raises the not-found error and changes nothing.  For a stored id it
    succeeds whether or not the CV file could be removed and whether or
    not the AI service's cleanup worked; afterwards that id is not found
    any more, every other id is found as before, no file has appeared,
    and every file other than the candidate's own is still there. *)
Theorem delete_removes_exactly_one_candidate :
  forall (unlinkSync aiCleanup : string -> bool) (i : string)
         (w : Store.World),
    let after := Store.deleteCandidate unlinkSync aiCleanup i w in
    (Store.findById i (Store.rows w) = None ->
     after = (Store.NotFoundException (Store.notFound i), w))
    /\ (forall r,
           Store.findById i (Store.rows w) = Some r ->
           fst after = Store.Ok tt
           /\ Store.findOne i (snd after)
              = Store.NotFoundException (Store.notFound i)
           /\ (forall j, j <> i ->
                 Store.findOne j (snd after) = Store.findOne j w)
           /\ (forall p, In p (Store.files (snd after)) ->
                         In p (Store.files w))
           /\ (forall p, Store.cvFilePath r <> Some p ->
                         In p (Store.files w) ->
                         In p (Store.files (snd after)))).
Proof.
  intros unlinkSync aiCleanup i w after. unfold after. split.
  - intros Hn. unfold Store.deleteCandidate, Store.findOne. rewrite Hn.
    reflexivity.
  - intros r Hf. rewrite (deleteCandidate_found unlinkSync aiCleanup i w r Hf).
    cbn [fst snd]. split; [reflexivity|].
    split; [|split; [|split]].
    + unfold Store.findOne. cbn [Store.rows].
      rewrite findById_filter_same. reflexivity.
    + intros j Hj. unfold Store.findOne. cbn [Store.rows].
      rewrite (findById_filter_other i j _ Hj). reflexivity.
    + intros p. cbn [Store.files]. apply removeCvFile_files.
    + intros p. cbn [Store.files]. apply removeCvFile_files.
Qed.

Lemma delete_removes_exactly_one_candidate_witness :
  fst (Store.deleteCandidate (fun _ => false) (fun _ => false) "a" sampleWorld)
  = Store.Ok tt
  /\ Store.findOne "a"
       (snd (Store.deleteCandidate (fun _ => false) (fun _ => false) "a"
               sampleWorld))
     = Store.NotFoundException (Store.notFound "a").
Proof.
  destruct (delete_removes_exactly_one_candidate (fun _ => false)
              (fun _ => false) "a" sampleWorld) as [_ H].
  destruct (H _ eq_refl) as [H1 [H2 _]]. split; assumption.
Defined.

(** X14: upload, find, delete.  After a successful upload under a fresh
    id the candidate is found under that id with the path of its file;
    deleting it then gives back the repository as it was before the
    upload, and also the files as they were when the file could be
    removed and its path was not in use before. *)
Theorem upload_then_delete_restores_the_repository :
  forall (Date_parse : JS.DateConstructor)
         (aiParse : string -> option Backend.ParsedCv)
         (unlinkSync aiCleanup : string -> bool)
         (uploadCvDto : Backend.UploadCvDto) (filePath newId : string)
         (w w1 : Store.World) (clk : Backend.Clock) (n n' : nat)
         (c : Backend.Candidate),
    Store.findById newId (Store.rows w) = None ->
    Store.uploadCv Date_parse aiParse uploadCvDto filePath newId w clk n
    = (Backend.Return c, w1, n') ->
    let after := Store.deleteCandidate unlinkSync aiCleanup newId w1 in
    Store.findOne newId w1
    = Store.Ok {| Store.entity := c; Store.cvFilePath := Some filePath |}
    /\ fst after = Store.Ok tt
    /\ Store.rows (snd after) = Store.rows w
    /\ (unlinkSync filePath = true -> filePath <> ""%string ->
        ~ In filePath (Store.files w) ->
        Store.files (snd after) = Store.files w).
Proof.
  intros Date_parse aiParse unlinkSync aiCleanup dto filePath newId w w1
         clk n n' c Hfresh Hup after.
  unfold Store.uploadCv in Hup.
  destruct (Store.findByEmail (Backend.dto_email dto) (Store.rows w));
    [discriminate|]. cbn zeta in Hup.
  destruct (Backend.uploadCv Date_parse dto None
              (Store.parseCvWithAI aiParse filePath) newId clk n)
    as [[c0|e] m] eqn:Hc; [|discriminate].
  injection Hup as -> <- <-.
  destruct (uploadCv_returns _ _ _ _ _ _ _ _ Hc) as [years [_ Heq]].
  assert (Hid : Backend.id c = newId) by (rewrite Heq; reflexivity).
  subst after.
  set (row := {| Store.entity := c; Store.cvFilePath := Some filePath |}).
  assert (Hfound :
            Store.findById newId (Store.rows w ++ [row]) = Some row).
  { apply findById_last; [exact Hfresh | exact Hid]. }
  split.
  - unfold Store.findOne. cbn [Store.rows]. rewrite Hfound. reflexivity.
  - rewrite (deleteCandidate_found unlinkSync aiCleanup newId
               {| Store.rows := Store.rows w ++ [row];
                  Store.files := filePath :: Store.files w |} row Hfound).
    cbn [fst snd Store.rows Store.files]. split; [reflexivity|]. split.
    + rewrite filter_app, (filter_keeps_all newId _ Hfresh). cbn.
      rewrite Hid, String.eqb_refl. cbn. apply app_nil_r.
    + intros Hun Hne Hnot. unfold Store.removeCvFile, Store.existsSync.
      cbn [Store.cvFilePath row Store.files existsb].
      rewrite String.eqb_refl.
      destruct (String.eqb_spec filePath "") as [|_]; [contradiction|].
      cbn [negb orb andb]. rewrite Hun. cbn [Store.files filter].
      rewrite String.eqb_refl. cbn [negb].
      clear - Hnot. induction (Store.files w) as [|q fs IH]; [reflexivity|].
      cbn. destruct (String.eqb_spec q filePath) as [->|_].
      * exfalso. apply Hnot. left. reflexivity.
      * cbn. f_equal. apply IH. intros H. apply Hnot. right. exact H.
Qed.

Lemma upload_then_delete_restores_the_repository_witness :
  Store.rows
    (snd (Store.deleteCandidate (fun _ => true) (fun _ => false) "c"
            (snd (fst (Store.uploadCv isoMonth (fun _ => None) (dtoOf "zoe")
                         "uploads/3-zoe.pdf" "c" sampleWorld
                         january2024 0%nat)))))
  = Store.rows sampleWorld.
Proof.
  destruct (Store.uploadCv isoMonth (fun _ => None) (dtoOf "zoe")
              "uploads/3-zoe.pdf" "c" sampleWorld january2024 0%nat)
    as [[o w1] n'] eqn:Hup.
  destruct o as [c|e]; [|vm_compute in Hup; discriminate].
  cbn [fst snd].
  apply (upload_then_delete_restores_the_repository isoMonth (fun _ => None)
           (fun _ => true) (fun _ => false) (dtoOf "zoe") "uploads/3-zoe.pdf"
           "c" sampleWorld w1 january2024 0%nat n' c);
    [reflexivity | exact Hup].
Defined.

(** X15: the upload endpoint takes PDF and DOCX files only.  Without a
    file, or with a file of another type, the request is rejected before
    the service runs: nothing is written, stored or read; and a
    candidate is only ever created from a file whose type is one of the
    two. *)
Theorem only_pdf_and_docx_are_uploaded :
  forall (Date_parse : JS.DateConstructor)
         (aiParse : string -> option Backend.ParsedCv)
         (uploadCvDto : Backend.UploadCvDto) (file : option Controller.File)
         (filePath newId : string) (w : Store.World)
         (clk : Backend.Clock) (n : nat),
    let after :=
      Controller.uploadCv Date_parse aiParse uploadCvDto file filePath newId
        w clk n in
    (file = None ->
     after = (Backend.Throw (Backend.BadRequestException "File is required"),
              w, n))
    /\ (forall f, file = Some f ->
          ~ In (Controller.mimetype f) Controller.allowedMimeTypes ->
          after
          = (Backend.Throw
               (Backend.BadRequestException
                  "Only PDF and DOCX files are allowed"), w, n))
    /\ (forall c, fst (fst after) = Backend.Return c ->
          exists f, file = Some f
                    /\ In (Controller.mimetype f) Controller.allowedMimeTypes).
Proof.
  intros Date_parse aiParse dto file filePath newId w clk n after.
  unfold after, Controller.uploadCv.
  assert (Hin : forall m,
             existsb (String.eqb m) Controller.allowedMimeTypes = true
             <-> In m Controller.allowedMimeTypes).
  { intros m. rewrite existsb_exists. split.
    - intros [x [Hx Heq]]. apply String.eqb_eq in Heq. subst. exact Hx.
    - intros H. exists m. split; [exact H | apply String.eqb_refl]. }
  split; [|split].
  - intros ->. reflexivity.
  - intros f -> Hno.
    destruct (existsb (String.eqb (Controller.mimetype f))
                Controller.allowedMimeTypes) eqn:He; [|reflexivity].
    exfalso. apply Hno. apply Hin. exact He.
  - intros c Hc. destruct file as [f|]; [|discriminate].
    exists f. split; [reflexivity|]. apply Hin.
    destruct (existsb (String.eqb (Controller.mimetype f))
                Controller.allowedMimeTypes); [reflexivity | discriminate].
Qed.

Lemma only_pdf_and_docx_are_uploaded_witness :
  Controller.uploadCv isoMonth (fun _ => None) (dtoOf "zoe")
    (Some {| Controller.originalname := "cv.txt";
             Controller.mimetype := "text/plain" |})
    "uploads/3-cv.txt" "c" sampleWorld january2024 0%nat
  = (Backend.Throw
       (Backend.BadRequestException "Only PDF and DOCX files are allowed"),
     sampleWorld, 0%nat).
Proof.
  destruct (only_pdf_and_docx_are_uploaded isoMonth (fun _ => None)
              (dtoOf "zoe")
              (Some {| Controller.originalname := "cv.txt";
                       Controller.mimetype := "text/plain" |})
              "uploads/3-cv.txt" "c" sampleWorld january2024 0%nat)
    as [_ [H _]].
  apply (H _ eq_refl). cbn. intuition discriminate.
Defined.

(* ================================================================== *)
(** * Editing and submitting the ranking form *)
(* ================================================================== *)

Section FormFacts.

Import Frontend FormEdit.

Lemma assign_length l : forall index value l',
  assign l index value = Some l' -> length l' = length l.
Proof.
  induction l as [|s l IH]; intros [|i] value l' H; cbn in H;
    try discriminate.
  - injection H as <-. reflexivity.
  - destruct (assign l i value) as [rest|] eqn:Hr; [|discriminate].
    injection H as <-. cbn. f_equal. exact (IH _ _ _ Hr).
Qed.

Lemma assign_in_range l : forall index value,
  (index < length l)%nat -> exists l', assign l index value = Some l'.
Proof.
  induction l as [|s l IH]; intros [|i] value H; cbn in *; try lia.
  - eexists. reflexivity.
  - destruct (IH i value) as [l' Hl']; [lia|]. rewrite Hl'.
    eexists. reflexivity.
Qed.

Lemma assign_nth l : forall index value l',
  assign l index value = Some l' ->
  nth_error l' index = Some value
  /\ forall j, j <> index -> nth_error l' j = nth_error l j.
Proof.
  induction l as [|s l IH]; intros [|i] value l' H; cbn in H;
    try discriminate.
  - injection H as <-. split; [reflexivity|].
    intros [|j] Hj; [contradiction | reflexivity].
  - destruct (assign l i value) as [rest|] eqn:Hr; [|discriminate].
    injection H as <-. destruct (IH _ _ _ Hr) as [Hv Ho]. split; [exact Hv|].
    intros [|j] Hj; [reflexivity|]. cbn. apply Ho. lia.
Qed.

Lemma filterOut_past index l : forall i,
  (index < i)%nat -> filterOut index i l = l.
Proof.
  induction l as [|s l IH]; intros i H; cbn; [reflexivity|].
  destruct (Nat.eqb_spec i index); [lia|]. cbn. f_equal. apply IH. lia.
Qed.

Lemma filterOut_spec index l : forall i,
  (i <= index)%nat ->
  filterOut index i l
  = firstn (index - i) l ++ skipn (S (index - i)) l.
Proof.
  induction l as [|s l IH]; intros i H; cbn [filterOut].
  - rewrite firstn_nil, skipn_nil. reflexivity.
  - destruct (Nat.eqb_spec i index) as [->|Hne]; cbn [negb].
    + rewrite Nat.sub_diag. cbn. apply filterOut_past. lia.
    + rewrite (IH (S i)) by lia.
      replace (index - i)%nat with (S (index - S i)) by lia. reflexivity.
Qed.

Lemma nonBlank_empty : nonBlank "" = false.
Proof. reflexivity. Qed.

Lemma skip_app w rest : JS.skip (String.length w) (w ++ rest) = rest.
Proof. induction w as [|c w IH]; cbn; [destruct rest; reflexivity | exact IH]. Qed.

Lemma length_app_string a b : String.length (a ++ b) = (String.length a + String.length b)%nat.
Proof. induction a as [|c a IH]; cbn; [reflexivity | rewrite IH; reflexivity]. Qed.

Lemma stripFirst_Some table s r :
  JS.stripFirst table s = Some r ->
  exists w, In w table /\ s = (w ++ r)%string.
Proof.
  induction table as [|w table IH]; cbn; [discriminate|].
  destruct (String.prefix w s) eqn:Hp.
  - intros H. injection H as <-. apply prefix_iff in Hp. destruct Hp as [rest ->].
    exists w. split; [left; reflexivity|]. rewrite skip_app. reflexivity.
  - intros H. destruct (IH H) as [w' [Hin Hs]]. exists w'. split; [right; exact Hin | exact Hs].
Qed.

Lemma stripFirst_None table s w :
  JS.stripFirst table s = None -> In w table -> String.prefix w s = false.
Proof.
  induction table as [|w0 table IH]; cbn; [intros _ []|].
  destruct (String.prefix w0 s) eqn:Hp; [discriminate|].
  intros H [<- | Hin]; [exact Hp | exact (IH H Hin)].
Qed.

Lemma whiteSpace_nonempty w : In w JS.whiteSpace -> w <> ""%string.
Proof.
  intros Hin.
  assert (H : forallb (fun w => negb (w =? "")%string) JS.whiteSpace = true) by reflexivity.
  rewrite forallb_forall in H. specialize (H w Hin).
  intros ->. discriminate.
Qed.

(** No encoding in the table begins another one. *)
Lemma whiteSpace_prefix_free w w' :
  In w JS.whiteSpace -> In w' JS.whiteSpace ->
  String.prefix w w' = true -> w = w'.
Proof.
  intros Hw Hw'.
  assert (H : forallb (fun w => forallb (fun w' => implb (String.prefix w w') (w =? w')%string) JS.whiteSpace) JS.whiteSpace = true) by (vm_compute; reflexivity).
  rewrite forallb_forall in H. specialize (H w Hw).
  rewrite forallb_forall in H. specialize (H w' Hw').
  intros Hp. rewrite Hp in H. cbn in H. apply String.eqb_eq. exact H.
Qed.

Lemma prefix_app_cases a b r r' :
  (a ++ r = b ++ r')%string -> String.prefix a b = true \/ String.prefix b a = true.
Proof.
  revert b. induction a as [|c a IH]; intros b H.
  - left. destruct b; reflexivity.
  - destruct b as [|d b].
    + right. reflexivity.
    + cbn in H. injection H as -> H. destruct (IH b H) as [Hp|Hp]; [left|right]; cbn;
        destruct (Ascii.ascii_dec d d); try contradiction; exact Hp.
Qed.

Lemma app_inv_head_string w a b : (w ++ a = w ++ b)%string -> a = b.
Proof. induction w as [|c w IH]; cbn; [tauto|]. intros H. injection H as H. exact (IH H). Qed.

Lemma stripFirst_whiteSpace w rest :
  In w JS.whiteSpace -> JS.stripFirst JS.whiteSpace (w ++ rest) = Some rest.
Proof.
  intros Hin.
  destruct (JS.stripFirst JS.whiteSpace (w ++ rest)) as [r|] eqn:Hs.
  - destruct (stripFirst_Some _ _ _ Hs) as [w' [Hin' Heq]].
    assert (w = w').
    { destruct (prefix_app_cases _ _ _ _ Heq) as [Hp|Hp].
      - exact (whiteSpace_prefix_free _ _ Hin Hin' Hp).
      - symmetry. exact (whiteSpace_prefix_free _ _ Hin' Hin Hp). }
    subst w'. apply app_inv_head_string in Heq. subst. reflexivity.
  - exfalso. pose proof (stripFirst_None _ _ w Hs Hin) as Hp.
    assert (String.prefix w (w ++ rest) = true) by (apply prefix_iff; exists rest; reflexivity).
    congruence.
Qed.

Lemma trimStartFrom_blank fuel : forall s,
  JS.trimStartFrom fuel s = ""%string ->
  exists ws, Forall (fun w => In w JS.whiteSpace) ws /\ s = concat ws.
Proof.
  induction fuel as [|fuel IH]; intros s H; cbn [JS.trimStartFrom] in H.
  - exists []. split; [constructor | exact H].
  - destruct (JS.stripFirst JS.whiteSpace s) as [r|] eqn:Hs.
    + destruct (stripFirst_Some _ _ _ Hs) as [w [Hin ->]].
      destruct (IH r H) as [ws [Hall ->]].
      exists (w :: ws). split; [constructor; assumption | reflexivity].
    + exists []. split; [constructor | exact H].
Qed.

Lemma trimStartFrom_concat ws : forall fuel,
  Forall (fun w => In w JS.whiteSpace) ws ->
  (String.length (concat ws) <= fuel)%nat ->
  JS.trimStartFrom fuel (concat ws) = ""%string.
Proof.
  induction ws as [|w ws IH]; intros fuel Hall Hlen.
  - destruct fuel; reflexivity.
  - inversion Hall as [|? ? Hw Hws]; subst. cbn [concat] in *.
    rewrite length_app_string in Hlen.
    pose proof (whiteSpace_nonempty w Hw) as Hne.
    destruct fuel as [|fuel].
    + destruct w; [contradiction | cbn in Hlen; lia].
    + cbn [JS.trimStartFrom]. rewrite (stripFirst_whiteSpace w _ Hw).
      apply IH; [exact Hws|]. destruct w; [contradiction | cbn in Hlen; lia].
Qed.

(** A string is blank exactly when it is a sequence of white-space
    code points. *)
Lemma isBlank_iff s : JS.isBlank s = true <-> whiteSpaceOnly s.
Proof.
  unfold whiteSpaceOnly, JS.isBlank, JS.trimStart. rewrite String.eqb_eq. split.
  - apply trimStartFrom_blank.
  - intros [ws [Hall ->]]. apply trimStartFrom_concat; [exact Hall | lia].
Qed.

(** What [trimStart] leaves has no white space in front. *)
Lemma trimStartFrom_done fuel : forall s,
  (String.length s <= fuel)%nat ->
  JS.stripFirst JS.whiteSpace (JS.trimStartFrom fuel s) = None.
Proof.
  induction fuel as [|fuel IH]; intros s Hlen; cbn [JS.trimStartFrom].
  - destruct s; [reflexivity | cbn in Hlen; lia].
  - destruct (JS.stripFirst JS.whiteSpace s) as [r|] eqn:Hs; [|exact Hs].
    apply IH. destruct (stripFirst_Some _ _ _ Hs) as [w [Hin ->]].
    rewrite length_app_string in Hlen.
    pose proof (whiteSpace_nonempty w Hin). destruct w; [contradiction | cbn in Hlen; lia].
Qed.

Lemma trimStartFrom_fixed fuel s :
  JS.stripFirst JS.whiteSpace s = None -> JS.trimStartFrom fuel s = s.
Proof.
  intros H. destruct fuel; cbn [JS.trimStartFrom]; [reflexivity|].
  rewrite H. reflexivity.
Qed.

Lemma trimStart_trimStart s : JS.trimStart (JS.trimStart s) = JS.trimStart s.
Proof.
  unfold JS.trimStart at 1. apply trimStartFrom_fixed.
  apply trimStartFrom_done. lia.
Qed.

Lemma trimEnd_empty t : JS.trimEnd t = ""%string <-> JS.isBlank t = true.
Proof.
  destruct t as [|c r]; cbn [JS.trimEnd].
  - split; reflexivity.
  - destruct (JS.isBlank (String c r)); split; try reflexivity; discriminate.
Qed.

(** [trim] leaves nothing exactly of the blank strings. *)
Lemma trim_empty s : JS.trim s = ""%string <-> JS.isBlank s = true.
Proof.
  unfold JS.trim. rewrite trimEnd_empty. unfold JS.isBlank.
  rewrite trimStart_trimStart. reflexivity.
Qed.

(** [s.trim() !== ''] holds exactly when [s] is not made of white
    space only. *)
Lemma nonBlank_hasInk s : nonBlank s = hasInk s.
Proof.
  unfold nonBlank, hasInk.
  destruct (String.eqb_spec (JS.trim s) "") as [He|Hne].
  - apply trim_empty in He. rewrite He. reflexivity.
  - destruct (JS.isBlank s) eqn:Hb; [|reflexivity].
    exfalso. apply Hne, trim_empty, Hb.
Qed.

(** A string has ink exactly when it is no sequence of white-space
    code points. *)
Lemma hasInk_iff s : hasInk s = true <-> ~ whiteSpaceOnly s.
Proof.
  unfold hasInk. rewrite <- isBlank_iff.
  destruct (JS.isBlank s); cbn; split; intros H;
    congruence || reflexivity || (exfalso; apply H; reflexivity).
Qed.

Lemma filter_nonBlank_idem l :
  filter nonBlank (filter nonBlank l) = filter nonBlank l.
Proof.
  induction l as [|s l IH]; [reflexivity|]. cbn.
  destruct (nonBlank s) eqn:Hs; cbn; [rewrite Hs, IH | rewrite IH];
    reflexivity.
Qed.

Lemma handle_required e formData formData' :
  handle e formData = Some formData' ->
  requiredSkills formData <> [] -> requiredSkills formData' <> [].
Proof.
  destruct e as [v|v|type index v|type index|type|p|v]; cbn;
    intros H Hne; try (injection H as <-; exact Hne).
  - unfold updateSkill in H. destruct type.
    + destruct (assign (requiredSkills formData) index v) as [l|] eqn:Ha;
        [|discriminate].
      injection H as <-. cbn. apply assign_length in Ha.
      destruct l; [|discriminate].
      destruct (requiredSkills formData); [contradiction | discriminate].
    + destruct (assign (preferredSkills formData) index v); [|discriminate].
      injection H as <-. exact Hne.
  - injection H as <-. destruct type; cbn; [|exact Hne].
    destruct (filterOut index 0 (requiredSkills formData)); cbn; discriminate.
  - injection H as <-. destruct type; cbn; [|exact Hne].
    destruct (requiredSkills formData); discriminate.
Qed.

End FormFacts.

(** X16: the form always has a row for a required skill: in every state
    that the inputs and buttons of the form can lead to, the list of
    required skills is not empty. *)
Theorem form_always_has_a_required_skill_row :
  forall formData : Frontend.FormData,
    FormEdit.reachable formData -> Frontend.requiredSkills formData <> [].
Proof.
  intros formData H. induction H as [|e formData formData' _ IH He].
  - discriminate.
  - exact (handle_required e formData formData' He IH).
Qed.

Lemma form_always_has_a_required_skill_row_witness :
  Frontend.requiredSkills
    (FormEdit.removeSkillField FormEdit.required 0 FormEdit.initialFormData)
  <> [].
Proof.
  apply form_always_has_a_required_skill_row.
  apply (FormEdit.reach_handle (FormEdit.RemoveSkill FormEdit.required 0)
           FormEdit.initialFormData).
  - apply FormEdit.reach_initial.
  - reflexivity.
Defined.

(** X17: empty rows do not count.  Adding a skill row of either kind
    and leaving it empty does not change what submitting the form
    does. *)
Theorem adding_an_empty_row_changes_nothing :
  forall (type : FormEdit.SkillType) (formData : Frontend.FormData),
    Frontend.handleSubmit (FormEdit.addSkillField type formData)
    = Frontend.handleSubmit formData.
Proof.
  intros type formData. unfold Frontend.handleSubmit.
  destruct type; cbn; rewrite filter_app; cbn; rewrite app_nil_r; reflexivity.
Qed.

(** X18: removing a row removes the row at that index and nothing
    else: the list becomes the rows before it followed by the rows after
    it (an index past the end removes nothing); the required skills get
    one empty row back when the last one is removed; the skills of the
    other kind are untouched. *)
Theorem removing_a_row_removes_that_row :
  forall (type : FormEdit.SkillType) (index : nat)
         (formData : Frontend.FormData),
    let rest := firstn index (skillsOf type formData)
                ++ skipn (S index) (skillsOf type formData) in
    skillsOf type (FormEdit.removeSkillField type index formData)
    = match type, rest with
      | FormEdit.required, [] => [""%string]
      | _, _ => rest
      end
    /\ skillsOf (otherType type)
         (FormEdit.removeSkillField type index formData)
       = skillsOf (otherType type) formData.
Proof.
  intros type index formData rest. unfold rest.
  destruct type;
    unfold FormEdit.removeSkillField, skillsOf, otherType,
      FormEdit.withRequiredSkills, FormEdit.withPreferredSkills;
    cbn [Frontend.requiredSkills Frontend.preferredSkills];
    rewrite (filterOut_spec index _ 0) by lia;
    rewrite Nat.sub_0_r.
  - split; [|reflexivity].
    destruct (firstn index (Frontend.requiredSkills formData)
              ++ skipn (S index) (Frontend.requiredSkills formData));
      reflexivity.
  - split; [|reflexivity].
    destruct (firstn index (Frontend.preferredSkills formData)
              ++ skipn (S index) (Frontend.preferredSkills formData));
      reflexivity.
Qed.

(** X19: typing into the row at an index sets that row and no other:
    for an index of an existing row the edit goes through, the row then
    holds the typed text, every other row of that kind and all the
    skills of the other kind are as before, and no row is added or
    lost. *)
Theorem typing_changes_one_row :
  forall (type : FormEdit.SkillType) (index : nat) (value : string)
         (formData : Frontend.FormData),
    (index < length (skillsOf type formData))%nat ->
    exists formData',
      FormEdit.updateSkill type index value formData = Some formData'
      /\ nth_error (skillsOf type formData') index = Some value
      /\ (forall j, j <> index ->
            nth_error (skillsOf type formData') j
            = nth_error (skillsOf type formData) j)
      /\ length (skillsOf type formData') = length (skillsOf type formData)
      /\ skillsOf (otherType type) formData'
         = skillsOf (otherType type) formData.
Proof.
  intros type index value formData Hlt.
  destruct (assign_in_range (skillsOf type formData) index value Hlt)
    as [l Hl].
  pose proof (assign_nth _ _ _ _ Hl) as [Hv Ho].
  pose proof (assign_length _ _ _ _ Hl) as Hlen.
  unfold FormEdit.updateSkill. destruct type; cbn in *; rewrite Hl;
    eexists; (split; [reflexivity|]); cbn; repeat split; assumption.
Qed.

Lemma typing_changes_one_row_witness :
  exists formData',
    FormEdit.updateSkill FormEdit.required 0 "Swift" FormEdit.initialFormData
    = Some formData'
    /\ nth_error (Frontend.requiredSkills formData') 0 = Some "Swift"%string.
Proof.
  destruct (typing_changes_one_row FormEdit.required 0 "Swift"
              FormEdit.initialFormData) as [f [Hf [Hv _]]].
  - cbn. lia.
  - exists f. split; [exact Hf | exact Hv].
Defined.

(** X20: what is posted.  When the form is accepted, the request carries
    the title, description, minimum years and education as typed, and of
    each list of skills the entries that are not blank, as typed (not
    trimmed) and in their order; an entry is dropped exactly when it is
    a sequence of white-space code points, those beyond ASCII (such as
    U+00A0, U+2003 or U+3000) included; submitting the posted request
    again would post the same request. *)
Theorem posted_skills_are_the_non_blank_ones :
  forall formData body : Frontend.FormData,
    Frontend.handleSubmit formData = Frontend.Post body ->
    Frontend.requiredSkills body
    = filter hasInk (Frontend.requiredSkills formData)
    /\ Frontend.preferredSkills body
       = filter hasInk (Frontend.preferredSkills formData)
    /\ (forall s,
          In s (Frontend.requiredSkills body)
          <-> In s (Frontend.requiredSkills formData) /\ ~ whiteSpaceOnly s)
    /\ (forall s,
          In s (Frontend.preferredSkills body)
          <-> In s (Frontend.preferredSkills formData) /\ ~ whiteSpaceOnly s)
    /\ Frontend.jobTitle body = Frontend.jobTitle formData
    /\ Frontend.jobDescription body = Frontend.jobDescription formData
    /\ Frontend.minYearsExperience body = Frontend.minYearsExperience formData
    /\ Frontend.requiredEducation body = Frontend.requiredEducation formData
    /\ Frontend.handleSubmit body = Frontend.Post body.
Proof.
  intros formData body H. unfold Frontend.handleSubmit in H.
  destruct ((Frontend.jobTitle formData =? "")
            || (Frontend.jobDescription formData =? ""))%string eqn:Hv;
    [discriminate|].
  destruct (length (filter Frontend.nonBlank (Frontend.requiredSkills formData))
            =? 0)%nat eqn:Hl; [discriminate|].
  injection H as <-. cbn.
  assert (Hin : forall l s,
             In s (filter Frontend.nonBlank l) <-> In s l /\ ~ whiteSpaceOnly s).
  { intros l s. rewrite filter_In, nonBlank_hasInk, hasInk_iff. reflexivity. }
  split; [apply filter_ext; intros s; apply nonBlank_hasInk|].
  split; [apply filter_ext; intros s; apply nonBlank_hasInk|].
  split; [apply Hin|]. split; [apply Hin|].
  repeat (split; [reflexivity|]).
  unfold Frontend.handleSubmit. cbn. rewrite Hv.
  rewrite !filter_nonBlank_idem, Hl. reflexivity.
Qed.

(** A witness: of the rows " Swift ", two spaces, an em space followed
    by an ideographic space, and "iOS", the first and the last are
    posted. *)
Lemma posted_skills_are_the_non_blank_ones_witness :
  exists body,
    Frontend.handleSubmit
      (sampleForm "iOS Developer"
         [" Swift "; "  "; emSpace ++ ideographicSpace; "iOS"]%string)
    = Frontend.Post body
    /\ Frontend.requiredSkills body = [" Swift "; "iOS"]%string.
Proof.
  eexists. split; [reflexivity|].
  destruct (posted_skills_are_the_non_blank_ones
              (sampleForm "iOS Developer"
                 [" Swift "; "  "; emSpace ++ ideographicSpace; "iOS"]%string)
              _ eq_refl) as [H _].
  rewrite H. reflexivity.
Defined.

(** X21: a submission, whatever the backend answers.  Loading is off
    afterwards if it was off before; a request is posted exactly when
    the form is accepted, and it is the accepted body; the ranked list
    is handed on exactly when the backend answered with one; and a
    failed request shows the backend's message, or "Failed to rank
    candidates" when it has none. *)
Theorem submission_ends_with_loading_off :
  forall (A : Type) (api : Frontend.FormData -> FormEdit.Response A)
         (formData : Frontend.FormData),
    FormEdit.loadingAfter (FormEdit.submit api formData) false = false
    /\ (forall body,
          In (FormEdit.PostRank body) (FormEdit.submit api formData)
          <-> Frontend.handleSubmit formData = Frontend.Post body)
    /\ (forall data,
          In (FormEdit.RankingComplete data) (FormEdit.submit api formData)
          <-> exists body,
                Frontend.handleSubmit formData = Frontend.Post body
                /\ api body = FormEdit.Succeeded data)
    /\ (forall body message,
          Frontend.handleSubmit formData = Frontend.Post body ->
          api body = FormEdit.Failed message ->
          In (FormEdit.ShowAlert (FormEdit.errorMessage message))
             (FormEdit.submit api formData)).
Proof.
  intros A api formData. unfold FormEdit.submit.
  destruct (Frontend.handleSubmit formData) as [msg|body] eqn:Hs.
  - split; [reflexivity|]. split; [|split].
    + intros b. split; [intros [H|[]]; discriminate | discriminate].
    + intros d. split; [intros [H|[]]; discriminate|].
      intros [b [H _]]. discriminate.
    + intros b m H. discriminate.
  - destruct (api body) as [data|message] eqn:Ha.
    + split; [reflexivity|]. split; [|split].
      * intros b. split.
        -- intros [H|[H|[H|[H|[]]]]]; try discriminate.
           injection H as ->. reflexivity.
        -- intros H. injection H as ->. right. left. reflexivity.
      * intros d. split.
        -- intros [H|[H|[H|[H|[]]]]]; try discriminate.
           injection H as ->. exists body. split; [reflexivity | exact Ha].
        -- intros [b [Hb Hd]]. injection Hb as <-. rewrite Ha in Hd.
           injection Hd as <-. right. right. left. reflexivity.
      * intros b m Hb Hm. injection Hb as <-. congruence.
    + split; [reflexivity|]. split; [|split].
      * intros b. split.
        -- intros [H|[H|[H|[H|[]]]]]; try discriminate.
           injection H as ->. reflexivity.
        -- intros H. injection H as ->. right. left. reflexivity.
      * intros d. split.
        -- intros [H|[H|[H|[H|[]]]]]; discriminate.
        -- intros [b [Hb Hd]]. injection Hb as <-. congruence.
      * intros b m Hb Hm. injection Hb as <-. rewrite Ha in Hm.
        injection Hm as <-. right. right. left. reflexivity.
Qed.

(* ================================================================== *)
(** * From one ranking to the next, and from the form to the request *)
(* ================================================================== *)

Lemma fold_update_withoutScore rankedCandidates :
  forall rows,
    map withoutScore (fold_left Backend.update rankedCandidates rows)
    = map withoutScore rows.
Proof.
  induction rankedCandidates as [|r ranked IH]; intros rows; [reflexivity|].
  cbn [fold_left]. rewrite IH. apply update_withoutScore.
Qed.

Lemma candidatePayload_withoutScore rows :
  map Backend.candidatePayload rows
  = map Backend.candidatePayload (map withoutScore rows).
Proof. rewrite map_map. apply map_ext. intros c. reflexivity. Qed.

(** X22: scores are not fed back.  The request that a ranking sends to
    the AI service is the same before and after the answers of an
    earlier ranking were written: the stored scores and scoring details
    never reach the AI service. *)
Theorem earlier_rankings_do_not_change_the_request :
  forall (rankDto : Backend.RankCandidatesDto)
         (rankedCandidates : list Backend.RankedCandidate)
         (rows : list Backend.Candidate),
    Backend.rankRequest rankDto
      (fold_left Backend.update rankedCandidates rows)
    = Backend.rankRequest rankDto rows.
Proof.
  intros rankDto ranked rows. unfold Backend.rankRequest. f_equal.
  rewrite candidatePayload_withoutScore, fold_update_withoutScore.
  symmetry. apply candidatePayload_withoutScore.
Qed.

(** X23: what the form posts is what the AI service is asked.  For an
    accepted form and a repository that is not empty (with no candidate
    stored nothing is sent), the job requirements that the backend
    sends on have the title and the description of the form, both
    non-empty, the required skills that are not blank, of which there
    is at least one and none of which is a sequence of white-space code
    points, the preferred skills that are not blank, and the education
    as typed. *)
Theorem accepted_form_reaches_the_ai_service :
  forall (formData body : Frontend.FormData) (rows : list Backend.Candidate),
    Frontend.handleSubmit formData = Frontend.Post body ->
    rows <> [] ->
    let requirements :=
      Backend.job_requirements (Backend.rankRequest (dtoOfBody body) rows) in
    Backend.jr_title requirements = Frontend.jobTitle formData
    /\ Backend.jr_title requirements <> ""%string
    /\ Backend.jr_description requirements = Frontend.jobDescription formData
    /\ Backend.jr_description requirements <> ""%string
    /\ Backend.required_skills requirements
       = filter hasInk (Frontend.requiredSkills formData)
    /\ Backend.required_skills requirements <> []
    /\ Forall (fun s => ~ whiteSpaceOnly s)
              (Backend.required_skills requirements)
    /\ Backend.preferred_skills requirements
       = filter hasInk (Frontend.preferredSkills formData)
    /\ Backend.required_education requirements
       = Frontend.requiredEducation formData.
Proof.
  intros formData body rows H _ requirements.
  destruct (handleSubmit_cases formData)
    as [[_ Ha] | [[_ [_ [_ Ha]]] | [Ht [Hd [Hf [body' [Hp Hb]]]]]]];
    try congruence.
  assert (body' = body) as -> by congruence.
  unfold Frontend.handleSubmit in H.
  destruct ((Frontend.jobTitle formData =? "")
            || (Frontend.jobDescription formData =? ""))%string;
    [discriminate|].
  destruct (length (filter Frontend.nonBlank (Frontend.requiredSkills formData))
            =? 0)%nat; [discriminate|].
  injection H as <-. unfold requirements. cbn.
  assert (Hreq : filter Frontend.nonBlank (Frontend.requiredSkills formData)
                 = filter hasInk (Frontend.requiredSkills formData))
    by (apply filter_ext; intros s; apply nonBlank_hasInk).
  split; [reflexivity|]. split; [exact Ht|].
  split; [reflexivity|]. split; [exact Hd|].
  split; [exact Hreq|]. split; [exact Hf|].
  split.
  { apply Forall_forall. intros s Hs. apply filter_In in Hs.
    destruct Hs as [_ Hs]. rewrite nonBlank_hasInk in Hs.
    apply hasInk_iff, Hs. }
  split; [|reflexivity].
  apply filter_ext. intros s. apply nonBlank_hasInk.
Qed.

(** A witness: with one candidate stored, a form with the rows "Swift"
    and an em space sends the one required skill "Swift". *)
Lemma accepted_form_reaches_the_ai_service_witness :
  exists body,
    Frontend.handleSubmit
      (sampleForm "iOS Developer" ["Swift"; emSpace]%string)
    = Frontend.Post body
    /\ Backend.required_skills
         (Backend.job_requirements
            (Backend.rankRequest (dtoOfBody body) [stored "a" (JS.Num 1)]))
       = ["Swift"]%string.
Proof.
  eexists. split; [reflexivity|].
  destruct (accepted_form_reaches_the_ai_service
              (sampleForm "iOS Developer" ["Swift"; emSpace]%string)
              _ [stored "a" (JS.Num 1)] eq_refl)
    as [_ [_ [_ [_ [H _]]]]].
  - discriminate.
  - rewrite H. reflexivity.
Defined.
